(** * Reference-data generators of medqc-system-test

    A shallow embedding of the three generator scripts
    [generate_d2_soap_templates.py], [generate_d6_disease_staging.py] and
    [generate_d8_department_mapping.py], and the properties their
    specification states about the generated record sequences.

    Python [str] values are sequences of Unicode code points: [len] counts
    code points and [s[0]] is the first code point.  The literals of the
    scripts are written here as UTF-8 text and decoded into code points, the
    way the interpreter reads a UTF-8 source file. *)

From Stdlib Require Import ZArith NArith List Ascii String DecimalString.
From Stdlib Require DecimalZ.
From stdpp Require Import base option list strings gmap.

Set Warnings "-register-all".

Open Scope N_scope.
Open Scope list_scope.

(** ** Python strings *)

Module PyStr.

Definition codepoint : Type := N.
Definition str : Type := list codepoint.

Definition bytes_of (s : string) : list N :=
  map N_of_ascii (list_ascii_of_string s).

Definition cont (b : N) : N := N.land b 63.

(** UTF-8 decoding of a source literal; an ill-formed sequence is read as
    U+FFFD, which no literal of the scripts needs. *)
Fixpoint utf8_decode (bs : list N) : str :=
  match bs with
  | [] => []
  | b0 :: t0 =>
    if b0 <? 128 then b0 :: utf8_decode t0
    else if b0 <? 192 then 65533 :: utf8_decode t0
    else if b0 <? 224 then
      match t0 with
      | b1 :: t1 =>
        N.lor (N.shiftl (N.land b0 31) 6) (cont b1) :: utf8_decode t1
      | [] => [65533]
      end
    else if b0 <? 240 then
      match t0 with
      | b1 :: b2 :: t2 =>
        N.lor (N.shiftl (N.land b0 15) 12)
              (N.lor (N.shiftl (cont b1) 6) (cont b2)) :: utf8_decode t2
      | _ => [65533]
      end
    else
      match t0 with
      | b1 :: b2 :: b3 :: t3 =>
        N.lor (N.shiftl (N.land b0 7) 18)
              (N.lor (N.shiftl (cont b1) 12)
                     (N.lor (N.shiftl (cont b2) 6) (cont b3))) :: utf8_decode t3
      | _ => [65533]
      end
  end.

(** A string literal of the source. *)
Definition lit (s : string) : str := utf8_decode (bytes_of s).

(** [repr] of an [int], as an f-string field [{n}] formats it. *)
Definition repr_int (z : Z) : str := lit (NilEmpty.string_of_int (Z.to_int z)).

(** [len(s)], of a string or of a list *)
Definition len {A} (s : list A) : Z := Z.of_nat (length s).

(** [sep.join(xs)] *)
Fixpoint join (sep : str) (xs : list str) : str :=
  match xs with
  | [] => []
  | [x] => x
  | x :: xs' => x ++ sep ++ join sep xs'
  end.

(** The UTF-8 bytes of a code point; a surrogate has none. *)
Definition utf8_encode_cp (c : codepoint) : option (list N) :=
  if c <? 128 then Some [c]
  else if c <? 2048 then
    Some [N.lor 192 (N.shiftr c 6); N.lor 128 (cont c)]
  else if c <? 65536 then
    if (55296 <=? c) && (c <? 57344) then None
    else Some [N.lor 224 (N.shiftr c 12);
               N.lor 128 (cont (N.shiftr c 6));
               N.lor 128 (cont c)]
  else if c <? 1114112 then
    Some [N.lor 240 (N.shiftr c 18);
          N.lor 128 (cont (N.shiftr c 12));
          N.lor 128 (cont (N.shiftr c 6));
          N.lor 128 (cont c)]
  else None.

(** The code points that have an encoding: all but the surrogates. *)
Definition scalar (c : codepoint) : bool :=
  (c <? 55296) || ((57344 <=? c) && (c <? 1114112)).

(** [s.encode("utf-8")], [None] for [UnicodeEncodeError] *)
Fixpoint utf8_encode (s : str) : option (list N) :=
  match s with
  | [] => Some []
  | c :: s' =>
    match utf8_encode_cp c, utf8_encode s' with
    | Some bs, Some rest => Some (bs ++ rest)
    | _, _ => None
    end
  end.

(** [sub in s] *)
Fixpoint startswith (p s : str) : bool :=
  match p, s with
  | [], _ => true
  | _ :: _, [] => false
  | a :: p', b :: s' => (a =? b) && startswith p' s'
  end.

Fixpoint contains (sub s : str) : bool :=
  startswith sub s ||
  match s with
  | [] => false
  | _ :: s' => contains sub s'
  end.

End PyStr.

Import PyStr.

(** ** Exceptions *)

Inductive exn : Type :=
| IndexError
| FileNotFoundError
| NotADirectoryError
| IsADirectoryError
| UnicodeEncodeError.

Inductive result (A : Type) : Type :=
| Ok (a : A)
| Raise (e : exn).
Arguments Ok {A} a.
Arguments Raise {A} e.

#[global] Instance result_ret : MRet result := fun A a => Ok a.
#[global] Instance result_bind : MBind result := fun A B f m =>
  match m with
  | Ok a => f a
  | Raise e => Raise e
  end.

(** [s[i]] for a non-negative index *)
Definition getitem_str (s : str) (i : nat) : result str :=
  match s !! i with
  | Some c => Ok [c]
  | None => Raise IndexError
  end.

(** ** Python values that the generators build *)

(** A [dict] keeps its keys in insertion order; assigning to a key that is
    present replaces the value and keeps the key's position. *)
Definition dict (V : Type) : Type := list (str * V).

Fixpoint dict_set {V} (d : dict V) (k : str) (v : V) : dict V :=
  match d with
  | [] => [(k, v)]
  | (k', v') :: d' =>
    if decide (k' = k) then (k', v) :: d' else (k', v') :: dict_set d' k v
  end.

(** [{k1: v1, k2: v2, ...}] *)
Definition dict_literal {V} (kvs : list (str * V)) : dict V :=
  fold_left (fun d kv => dict_set d kv.1 kv.2) kvs [].

(** [d.items()] *)
Definition items {V} (d : dict V) : list (str * V) := d.

Fixpoint dict_get {V} (d : dict V) (k : str) : option V :=
  match d with
  | [] => None
  | (k', v) :: d' => if decide (k' = k) then Some v else dict_get d' k
  end.

Inductive value : Type :=
| VStr (s : str)
| VInt (n : Z)
| VList (l : list value)
| VDict (d : dict value).

(** [r[k]] of a record, [None] where Python raises. *)
Definition field (k : string) (r : value) : option value :=
  match r with
  | VDict d => dict_get d (lit k)
  | _ => None
  end.

Definition str_field (k : string) (r : value) : option str :=
  match field k r with
  | Some (VStr s) => Some s
  | _ => None
  end.

Definition int_field (k : string) (r : value) : option Z :=
  match field k r with
  | Some (VInt n) => Some n
  | _ => None
  end.

Definition list_field (k : string) (r : value) : option (list value) :=
  match field k r with
  | Some (VList l) => Some l
  | _ => None
  end.

(** ** Loops over a list that is being built *)

(** [data.append(x)] *)
Definition append {A} (data : list A) (x : A) : list A := data ++ [x].

(** [for x in xs: body], the body updating the state [s] *)
Definition for_each {A S} (xs : list A) (body : A -> S -> S) (s : S) : S :=
  fold_left (fun s x => body x s) xs s.

(** The same loop when the body can raise: the first exception ends it. *)
Fixpoint for_in {A S} (xs : list A) (body : A -> S -> result S) (s : S)
  : result S :=
  match xs with
  | [] => Ok s
  | x :: xs' => s' ← body x s; for_in xs' body s'
  end.

(** ** json.dump(obj, f, ensure_ascii=False, indent=2) *)

Module Json.

Definition hex_digit (n : N) : codepoint :=
  if n <? 10 then 48 + n else 87 + n.

(** With [ensure_ascii=False] only the quote, the backslash and the control
    characters are escaped. *)
Definition escape_char (c : codepoint) : str :=
  if c =? 34 then [92; 34]
  else if c =? 92 then [92; 92]
  else if c =? 10 then [92; 110]
  else if c =? 13 then [92; 114]
  else if c =? 9 then [92; 116]
  else if c =? 8 then [92; 98]
  else if c =? 12 then [92; 102]
  else if c <? 32 then [92; 117; 48; 48; hex_digit (c / 16); hex_digit (c mod 16)]
  else [c].

Definition encode_basestring (s : str) : str :=
  [34] ++ flat_map escape_char s ++ [34].

Definition newline_indent (level : nat) : str :=
  10 :: repeat 32 (2 * level)%nat.

(** With an indent the item separator is [","] followed by the newline and
    the indentation, and the key separator is [": "]. *)
Fixpoint dumps_at (level : nat) (v : value) : str :=
  match v with
  | VStr s => encode_basestring s
  | VInt n => repr_int n
  | VList [] => lit "[]"
  | VList l =>
    lit "[" ++ newline_indent (S level)
      ++ join (lit "," ++ newline_indent (S level)) (map (dumps_at (S level)) l)
      ++ newline_indent level ++ lit "]"
  | VDict [] => lit "{}"
  | VDict d =>
    lit "{" ++ newline_indent (S level)
      ++ join (lit "," ++ newline_indent (S level))
           (map (fun kv => encode_basestring (fst kv) ++ lit ": "
                             ++ dumps_at (S level) (snd kv)) d)
      ++ newline_indent level ++ lit "}"
  end.

Definition dumps (v : value) : str := dumps_at 0 v.

End Json.

(** ** The file system and the standard output *)

Module OS.

Inductive node : Type :=
| Dir
| File (content : list N).

Record world : Type := World {
  fs : gmap string node;
  stdout : list str
}.

Definition io (A : Type) : Type := world -> result A * world.

#[global] Instance io_ret : MRet io := fun A a w => (Ok a, w).
#[global] Instance io_bind : MBind io := fun A B f m w =>
  match m w with
  | (Ok a, w') => f a w'
  | (Raise e, w') => (Raise e, w')
  end.

(** An exception of the pure part of a generator ends the run. *)
Definition lift {A} (r : result A) : io A := fun w => (r, w).

Fixpoint has_slash (p : string) : bool :=
  match p with
  | EmptyString => false
  | String c p' => if Ascii.eqb c "/" then true else has_slash p'
  end.

(** The part of a relative path before its last ["/"]. *)
Fixpoint dirname (p : string) : string :=
  match p with
  | EmptyString => EmptyString
  | String c p' => if has_slash p' then String c (dirname p') else EmptyString
  end.

Definition parent (w : world) (path : string) : option node :=
  match dirname path with
  | EmptyString => Some Dir
  | d => fs w !! d
  end.

(** [with open(path, "w", encoding="utf-8") as f: f.write(text)]: the
    parent directory has to exist and [path] must not name a directory; the
    file is created or truncated, then holds the encoded text. *)
Definition write_text (path : string) (text : str) : io unit := fun w =>
  match fs w !! path with
  | Some Dir => (Raise IsADirectoryError, w)
  | _ =>
    match parent w path with
    | None => (Raise FileNotFoundError, w)
    | Some (File _) => (Raise NotADirectoryError, w)
    | Some Dir =>
      match utf8_encode text with
      | None =>
        (Raise UnicodeEncodeError,
         {| fs := <[path := File []]> (fs w); stdout := stdout w |})
      | Some bytes =>
        (Ok tt, {| fs := <[path := File bytes]> (fs w); stdout := stdout w |})
      end
    end
  end.

(** [print(line)] *)
Definition print (line : str) : io unit := fun w =>
  (Ok tt, {| fs := fs w; stdout := stdout w ++ [line] |}).

(** [with open(...) as f: json.dump(data, f, ensure_ascii=False, indent=2)] *)
Definition dump_json (path : string) (data : list value) : io unit :=
  write_text path (Json.dumps (VList data)).

End OS.

Import OS.

(** ** generate_d2_soap_templates.py *)

Module D2.

Definition diseases : list str := map lit [
  "高血压"; "2型糖尿病"; "冠心病"; "心力衰竭"; "房颤"; "脑梗死"; "肺炎"; "慢阻肺"; "哮喘";
  "肝硬化"; "消化性溃疡"; "急性胰腺炎"; "慢性肾病"; "肾结石"; "贫血"; "甲亢"; "痛风";
  "类风湿关节炎"; "腰椎间盘突出"; "骨折"; "阑尾炎"; "胆囊炎"; "乳腺癌"; "肺癌"; "胃癌";
  "抑郁症"; "癫痫"; "帕金森病"; "深静脉血栓"; "败血症"
]%string.

(** The dict literal of the loop body; [disease[0]] raises on an empty name. *)
Definition template (disease : str) : result value :=
  first ← getitem_str disease 0;
  mret (VDict (dict_literal [
    (lit "disease", VStr disease);
    (lit "icdCode", VStr (lit "ICD-" ++ first ++ repr_int (len disease)));
    (lit "subjective",
     VStr (disease ++ lit "相关主诉：例如头晕、头痛、乏力等，持续X天/月/年..."));
    (lit "objective",
     VStr (disease ++ lit "相关客观检查：例如BP XXX/XXX mmHg，心率XX次/分，体温XX℃，实验室检查异常等..."));
    (lit "assessment",
     VStr (disease ++ lit "诊断评估：例如" ++ disease
                   ++ lit "X级（极高危/高危/中危），病情稳定/进展/恶化..."));
    (lit "plan",
     VStr (disease ++ lit "治疗计划：1. 药物调整 2. 生活方式干预 3. 定期复查 4. 健康教育..."))
  ])).

(** The list [soap_templates] after the loop over [diseases]. *)
Definition build (diseases : list str) : result (list value) :=
  for_in diseases
    (fun disease soap_templates =>
       template ← template disease;
       mret (append soap_templates template))
    [].

Definition soap_templates : result (list value) := build diseases.

Definition output_path : string := "data/d2_soap_templates.json".

Definition generate_d2_soap_templates : io unit :=
  soap_templates ← lift soap_templates;
  dump_json output_path soap_templates;;
  print (lit "Generated " ++ repr_int (len soap_templates)
           ++ lit " SOAP templates.");;
  print (lit "Output saved to " ++ lit output_path).

End D2.

(** ** generate_d6_disease_staging.py *)

Module D6.

(** A stage-detail literal
    [{"stage": ..., "criteria": ..., "description": ...}]. *)
Definition stage_info (stage criteria description : string) : value :=
  VDict (dict_literal [
    (lit "stage", VStr (lit stage));
    (lit "criteria", VStr (lit criteria));
    (lit "description", VStr (lit description))
  ]).

(** The dict literal that every loop body appends. *)
Definition record (disease icd_code : str) (stagingSystem : string)
    (stage_info : value) (category : string) : value :=
  VDict (dict_literal [
    (lit "disease", VStr disease);
    (lit "icdCode", VStr icd_code);
    (lit "stagingSystem", VStr (lit stagingSystem));
    (lit "stages", VList [stage_info]);
    (lit "category", VStr (lit category))
  ]).

(** [for disease, icd_code in diseases.items():
       for stage_info in stages: data.append({...})] *)
Definition table_loop (diseases : dict str) (stages : list value)
    (stagingSystem category : string) (data : list value) : list value :=
  for_each (items diseases)
    (fun item data =>
       let disease := item.1 in
       let icd_code := item.2 in
       for_each stages
         (fun stage_info data =>
            append data (record disease icd_code stagingSystem stage_info category))
         data)
    data.

(** [for stage_info in stages: data.append({"disease": "...", ...})], the
    loops whose disease and code are literals of the body. *)
Definition single_loop (disease icd_code : string) (stages : list value)
    (stagingSystem category : string) (data : list value) : list value :=
  for_each stages
    (fun stage_info data =>
       append data
         (record (lit disease) (lit icd_code) stagingSystem stage_info category))
    data.

(** The tables, in the order of the script; the stage lists are the list
    literals of the inner loops. *)

Definition tnm_diseases : dict str := dict_literal [
  (lit "肺癌", lit "C34");
  (lit "胃癌", lit "C16");
  (lit "肝癌", lit "C22");
  (lit "结直肠癌", lit "C18");
  (lit "乳腺癌", lit "C50");
  (lit "食管癌", lit "C15");
  (lit "胰腺癌", lit "C25");
  (lit "肾癌", lit "C64");
  (lit "膀胱癌", lit "C67");
  (lit "前列腺癌", lit "C61");
  (lit "宫颈癌", lit "C53");
  (lit "卵巢癌", lit "C56");
  (lit "甲状腺癌", lit "C73");
  (lit "黑色素瘤", lit "C43");
  (lit "淋巴瘤", lit "C85")
].

Definition tnm_stages : list value := [
  stage_info "I期" "T1-2N0M0" "肿瘤局限于原发器官，无淋巴结转移";
  stage_info "II期" "T1-2N1M0 或 T3N0M0" "肿瘤侵犯同侧淋巴结";
  stage_info "III期" "T3-4N1-2M0" "局部晚期，区域淋巴结广泛受累";
  stage_info "IV期" "任何T任何NM1" "远处转移"
].

Definition nyha_diseases : dict str := dict_literal [
  (lit "心力衰竭", lit "I50");
  (lit "风湿性心脏病", lit "I09");
  (lit "扩张型心肌病", lit "I42.0")
].

Definition nyha_stages : list value := [
  stage_info "I级" "无症状，日常活动不受限" "体力活动不受限制";
  stage_info "II级" "日常活动轻度受限，休息时无症状" "体力活动轻度受限";
  stage_info "III级" "日常活动明显受限，休息时无症状" "体力活动明显受限";
  stage_info "IV级" "任何体力活动均引起症状，休息时亦有症状" "不能进行任何体力活动"
].

Definition ckd_diseases : dict str := dict_literal [
  (lit "慢性肾病", lit "N18");
  (lit "糖尿病肾病", lit "E10.2");
  (lit "高血压肾病", lit "I12")
].

Definition ckd_stages : list value := [
  stage_info "1期" "GFR ≥ 90 mL/min/1.73m²" "肾功能正常或升高，伴有肾损伤证据";
  stage_info "2期" "GFR 60-89 mL/min/1.73m²" "肾功能轻度下降，伴有肾损伤证据";
  stage_info "3期" "GFR 30-59 mL/min/1.73m²" "肾功能中度下降";
  stage_info "4期" "GFR 15-29 mL/min/1.73m²" "肾功能重度下降";
  stage_info "5期" "GFR < 15 mL/min/1.73m² 或透析" "终末期肾病"
].

Definition gold_stages : list value := [
  stage_info "I级 (轻度)" "FEV1/FVC < 0.70 且 FEV1 ≥ 80% 预计值" "轻度气流受限";
  stage_info "II级 (中度)" "FEV1/FVC < 0.70 且 50% ≤ FEV1 < 80% 预计值" "中度气流受限";
  stage_info "III级 (重度)" "FEV1/FVC < 0.70 且 30% ≤ FEV1 < 50% 预计值" "重度气流受限";
  stage_info "IV级 (极重度)" "FEV1/FVC < 0.70 且 FEV1 < 30% 预计值 或 FEV1 < 50% 预计值伴慢性呼吸衰竭" "极重度气流受限"
].

Definition child_pugh_diseases : dict str := dict_literal [
  (lit "肝硬化", lit "K74");
  (lit "肝衰竭", lit "K72")
].

Definition child_pugh_stages : list value := [
  stage_info "A级" "5-6分" "肝功能代偿良好";
  stage_info "B级" "7-9分" "肝功能失代偿";
  stage_info "C级" "10-15分" "肝功能严重失代偿"
].

Definition hypertension_grade_stages : list value := [
  stage_info "1级" "收缩压140-159 mmHg 或 舒张压90-99 mmHg" "轻度高血压";
  stage_info "2级" "收缩压160-179 mmHg 或 舒张压100-109 mmHg" "中度高血压";
  stage_info "3级" "收缩压≥180 mmHg 或 舒张压≥110 mmHg" "重度高血压"
].

Definition hypertension_risk_stages : list value := [
  stage_info "低危" "无靶器官损害，无糖尿病，无心血管疾病" "未来10年心血管事件风险<15%";
  stage_info "中危" "1-2个危险因素，无靶器官损害" "未来10年心血管事件风险15-20%";
  stage_info "高危" "≥3个危险因素 或 靶器官损害 或 糖尿病" "未来10年心血管事件风险20-30%";
  stage_info "很高危" "已有心血管疾病 或 糖尿病伴靶器官损害" "未来10年心血管事件风险>30%"
].

Definition retinopathy_stages : list value := [
  stage_info "非增殖期" "微动脉瘤、出血、硬性渗出" "早期病变";
  stage_info "增殖前期" "棉絮斑、静脉串珠样改变" "进展期病变";
  stage_info "增殖期" "新生血管形成、玻璃体出血" "晚期病变"
].

Definition nephropathy_stages : list value := [
  stage_info "I期" "肾小球高滤过，肾脏肥大" "早期功能亢进";
  stage_info "II期" "正常白蛋白尿，肾脏病理改变" "正常白蛋白尿期";
  stage_info "III期" "微量白蛋白尿" "早期肾病期";
  stage_info "IV期" "临床白蛋白尿" "临床肾病期";
  stage_info "V期" "终末期肾病" "终末期肾病"
].

Definition neuropathy_stages : list value := [
  stage_info "无症状期" "神经传导速度异常" "无临床症状";
  stage_info "症状期" "感觉异常、疼痛、麻木" "出现临床症状";
  stage_info "并发症期" "足溃疡、Charcot关节" "出现严重并发症"
].

Definition burn_stages : list value := [
  stage_info "I度" "红斑，无水疱" "表皮损伤";
  stage_info "浅II度" "水疱，基底潮红" "真皮浅层损伤";
  stage_info "深II度" "水疱，基底苍白，痛觉迟钝" "真皮深层损伤";
  stage_info "III度" "焦痂，无痛觉" "全层皮肤损伤"
].

Definition ao_fractures : dict str := dict_literal [
  (lit "股骨颈骨折", lit "S72.0");
  (lit "股骨干骨折", lit "S72.3");
  (lit "胫骨平台骨折", lit "S82.1");
  (lit "踝关节骨折", lit "S82.8");
  (lit "桡骨远端骨折", lit "S52.5");
  (lit "肱骨近端骨折", lit "S42.2");
  (lit "肱骨干骨折", lit "S42.3");
  (lit "锁骨骨折", lit "S42.0");
  (lit "脊柱压缩性骨折", lit "S32.0");
  (lit "骨盆骨折", lit "S32.8");
  (lit "股骨髁上骨折", lit "S72.4");
  (lit "胫骨干骨折", lit "S82.2");
  (lit "跟骨骨折", lit "S92.0");
  (lit "舟骨骨折", lit "S62.0");
  (lit "指骨骨折", lit "S62.6")
].

Definition ao_stages : list value := [
  stage_info "A型" "简单骨折" "骨折线单一";
  stage_info "B型" "楔形骨折" "有中间骨块";
  stage_info "C型" "复杂骨折" "粉碎性骨折"
].

Definition ecog_stages : list value := [
  stage_info "0分" "活动完全正常，无任何症状" "完全活动";
  stage_info "1分" "可自由活动，但不能从事重体力劳动" "轻度症状";
  stage_info "2分" "可自由活动，但不能从事任何工作，日间卧床时间少于50%" "中度症状";
  stage_info "3分" "日间卧床时间多于50%，但可生活自理" "重度症状";
  stage_info "4分" "完全卧床，生活不能自理" "完全卧床"
].

Definition gcs_stages : list value := [
  stage_info "3-8分" "重度意识障碍" "昏迷";
  stage_info "9-12分" "中度意识障碍" "嗜睡或昏睡";
  stage_info "13-15分" "轻度意识障碍" "清醒或定向力障碍"
].

Definition asa_stages : list value := [
  stage_info "I级" "健康患者" "无系统性疾病";
  stage_info "II级" "轻度系统性疾病" "如轻度高血压、糖尿病";
  stage_info "III级" "重度系统性疾病" "如控制不佳的高血压、糖尿病";
  stage_info "IV级" "危及生命的重度系统性疾病" "如不稳定心绞痛、重度COPD";
  stage_info "V级" "濒死患者" "预计24小时内死亡";
  stage_info "VI级" "脑死亡患者" "器官捐献者"
].

Definition forrest_stages : list value := [
  stage_info "Ia" "活动性喷射状出血" "高危";
  stage_info "Ib" "活动性渗血" "高危";
  stage_info "IIa" "非活动性可见血管" "中危";
  stage_info "IIb" "非活动性附着血凝块" "中危";
  stage_info "IIc" "非活动性黑色斑点基底" "低危";
  stage_info "III" "清洁基底" "低危"
].

Definition mrs_stages : list value := [
  stage_info "0分" "无症状" "完全恢复";
  stage_info "1分" "无明显残疾" "能够完成所有日常活动";
  stage_info "2分" "轻度残疾" "不能完成所有病前活动，但可独立生活";
  stage_info "3分" "中度残疾" "需要一些帮助，但无需他人持续照护";
  stage_info "4分" "中重度残疾" "需要持续照护，不能独立行走或生活";
  stage_info "5分" "重度残疾" "卧床不起，大小便失禁，需要持续护理";
  stage_info "6分" "死亡" "死亡"
].

(** The list [data] when the last loop has ended. *)
Definition data : list value :=
  let data := [] in
  let data := table_loop tnm_diseases tnm_stages "TNM" "肿瘤分期" data in
  let data := table_loop nyha_diseases nyha_stages "NYHA" "心功能分级" data in
  let data := table_loop ckd_diseases ckd_stages "CKD" "肾病分期" data in
  let data := single_loop "慢性阻塞性肺疾病" "J44" gold_stages "GOLD" "肺病分级" data in
  let data := table_loop child_pugh_diseases child_pugh_stages "Child-Pugh" "肝病分级" data in
  let data := single_loop "高血压" "I10" hypertension_grade_stages "分级" "心血管分级" data in
  let data := single_loop "高血压" "I10" hypertension_risk_stages "危险分层" "心血管分级" data in
  let data := single_loop "糖尿病视网膜病变" "E10.3" retinopathy_stages "分期" "糖尿病并发症分期" data in
  let data := single_loop "糖尿病肾病" "E10.2" nephropathy_stages "分期" "糖尿病并发症分期" data in
  let data := single_loop "糖尿病周围神经病变" "E10.4" neuropathy_stages "分期" "糖尿病并发症分期" data in
  let data := single_loop "烧伤" "T30" burn_stages "分度" "创伤分度" data in
  let data := table_loop ao_fractures ao_stages "AO分型" "骨折分型" data in
  let data := single_loop "肿瘤患者一般状况" "Z08.8" ecog_stages "ECOG PS" "一般状况评分" data in
  let data := single_loop "意识障碍" "R40.2" gcs_stages "GCS" "神经功能评分" data in
  let data := single_loop "麻醉风险评估" "Z01.8" asa_stages "ASA PS" "麻醉风险评估" data in
  let data := single_loop "消化性溃疡出血" "K27.4" forrest_stages "Forrest" "消化道出血分级" data in
  let data := single_loop "脑卒中功能预后" "I63" mrs_stages "mRS" "神经功能评分" data in
  data.

Definition output_path : string := "data/d6_disease_staging.json".

Definition generate_d6_disease_staging : io unit :=
  dump_json output_path data;;
  print (lit "Generated " ++ repr_int (len data)
           ++ lit " disease staging entries. Output saved to "
           ++ lit output_path).

End D6.

(** ** generate_d8_department_mapping.py *)

Module D8.

(** One department literal, its keys in the order of the script. *)
Definition department (departmentCode departmentName : string)
    (aliases : list string) (category : string) (wards : list string)
    (bedCount : Z) (specialRequirements : list string) : value :=
  let strs := fun l : list string => VList (map (fun s => VStr (lit s)) l) in
  VDict (dict_literal [
    (lit "departmentCode", VStr (lit departmentCode));
    (lit "departmentName", VStr (lit departmentName));
    (lit "aliases", strs aliases);
    (lit "category", VStr (lit category));
    (lit "wards", strs wards);
    (lit "bedCount", VInt bedCount);
    (lit "specialRequirements", strs specialRequirements)
  ]).

Definition data : list value := [
  department "ICU" "重症医学科" ["ICU"; "重症监护室"; "MICU"; "SICU"] "急危重症"
    ["ICU-A区"; "ICU-B区"] 30
    ["24小时监护"; "呼吸机管理"; "CRRT"];
  department "ER" "急诊科" ["急诊"; "急诊室"] "急危重症"
    ["急诊抢救室"; "急诊观察室"] 20
    ["快速诊断"; "紧急处理"; "多学科协作"];
  department "CARD" "心血管内科" ["心内科"; "心内"] "内科系统"
    ["心内一病区"; "心内二病区"] 60
    ["心电监护"; "介入治疗"; "心脏康复"];
  department "RESP" "呼吸内科" ["呼吸科"; "呼吸"] "内科系统"
    ["呼吸一病区"; "呼吸二病区"] 55
    ["呼吸机支持"; "支气管镜"; "肺功能检查"];
  department "GASTRO" "消化内科" ["消化科"; "消化"] "内科系统"
    ["消化一病区"; "消化二病区"] 50
    ["胃肠镜"; "肝穿刺"; "内镜下治疗"];
  department "NEPHRO" "肾脏内科" ["肾内科"; "肾内"] "内科系统"
    ["肾内病区"] 40
    ["血液透析"; "腹膜透析"; "肾活检"];
  department "ENDO" "内分泌科" ["内分泌"] "内科系统"
    ["内分泌病区"] 45
    ["血糖管理"; "甲状腺功能评估"; "骨密度检查"];
  department "HEMA" "血液内科" ["血液科"] "内科系统"
    ["血液病区"] 35
    ["骨髓穿刺"; "化疗"; "造血干细胞移植"];
  department "RHEUM" "风湿免疫科" ["风湿科"] "内科系统"
    ["风湿免疫病区"] 30
    ["免疫抑制剂治疗"; "关节腔穿刺"];
  department "NEURO" "神经内科" ["神内科"; "神内"] "内科系统"
    ["神内一病区"; "神内二病区"] 60
    ["脑电图"; "肌电图"; "神经康复"];
  department "INFECT" "感染科" ["传染科"] "内科系统"
    ["感染病区"] 30
    ["隔离管理"; "抗感染治疗"];
  department "GSURG" "普通外科" ["普外科"; "普外"] "外科系统"
    ["普外一病区"; "普外二病区"] 70
    ["腹腔镜手术"; "胃肠道手术"; "甲状腺手术"];
  department "ORTHO" "骨科" ["骨外科"] "外科系统"
    ["骨科一病区"; "骨科二病区"] 80
    ["关节置换"; "脊柱手术"; "创伤修复"];
  department "CTS" "心胸外科" ["胸外科"; "心外科"] "外科系统"
    ["心胸外科病区"] 40
    ["心脏搭桥"; "肺叶切除"; "食管癌手术"];
  department "URO" "泌尿外科" ["泌外"] "外科系统"
    ["泌尿外科病区"] 45
    ["肾移植"; "膀胱镜"; "前列腺手术"];
  department "NSURG" "神经外科" ["神外科"; "神外"] "外科系统"
    ["神经外科病区"] 50
    ["脑肿瘤切除"; "脑血管介入"; "脊髓手术"];
  department "PLAST" "烧伤整形科" ["整形外科"] "外科系统"
    ["烧伤病区"; "整形病区"] 30
    ["烧伤治疗"; "皮肤移植"; "美容整形"];
  department "OBGYN" "妇产科" ["妇科"; "产科"] "妇产科"
    ["妇科病区"; "产科病区"] 60
    ["分娩"; "妇科肿瘤手术"; "产前检查"];
  department "PED" "儿科" ["儿内科"; "儿外科"] "儿科"
    ["儿科病区"; "新生儿病区"] 50
    ["儿童常见病"; "新生儿监护"; "儿童保健"];
  department "OPHTH" "眼科" ["眼耳鼻喉科"] "五官科"
    ["眼科病区"] 25
    ["白内障手术"; "眼底检查"; "激光治疗"];
  department "ENT" "耳鼻咽喉科" ["耳鼻喉科"] "五官科"
    ["耳鼻喉科病区"] 25
    ["听力检查"; "鼻内镜手术"; "扁桃体切除"];
  department "ORAL" "口腔科" ["口腔颌面外科"] "五官科"
    ["口腔科病区"] 20
    ["牙齿种植"; "颌面部手术"; "口腔修复"];
  department "DERM" "皮肤科" ["皮肤性病科"] "其他"
    ["皮肤科病区"] 15
    ["皮肤病诊断"; "激光治疗"; "皮肤活检"];
  department "TCM" "中医科" ["中西医结合科"] "其他"
    ["中医科病区"] 20
    ["中医辨证"; "针灸"; "中药治疗"];
  department "REHAB" "康复医学科" ["康复科"] "其他"
    ["康复病区"] 30
    ["物理治疗"; "作业治疗"; "言语治疗"];
  department "ONCO" "肿瘤科" ["肿瘤内科"; "肿瘤外科"] "其他"
    ["肿瘤一病区"; "肿瘤二病区"] 50
    ["化疗"; "放疗"; "靶向治疗"];
  department "GERI" "老年医学科" ["老年科"] "其他"
    ["老年病区"] 30
    ["老年综合评估"; "多重用药管理"];
  department "PSYCH" "精神医学科" ["精神科"] "其他"
    ["精神科病区"] 40
    ["心理治疗"; "药物治疗"; "电休克治疗"];
  department "ANESTH" "麻醉科" ["麻醉"] "其他"
    ["麻醉恢复室"] 10
    ["术中麻醉管理"; "疼痛管理"];
  department "PATH" "病理科" ["病理"] "其他"
    [] 0
    ["组织病理诊断"; "细胞学诊断"];
  department "RADI" "放射科" ["影像科"] "其他"
    [] 0
    ["X线"; "CT"; "MRI"; "超声"];
  department "LAB" "检验科" ["化验室"] "其他"
    [] 0
    ["血液检验"; "生化检验"; "免疫检验"]
]%string.

Definition output_path : string := "data/d8_department_mapping.json".

Definition generate_d8_department_mapping : io unit :=
  dump_json output_path data;;
  print (lit "Generated " ++ repr_int (len data)
           ++ lit " department mapping entries. Output saved to "
           ++ lit output_path).

End D8.

(** ** Vocabulary of the specification *)

(** The staging tables the way the specification describes the staging
    generator: each table crosses the (disease, code) entries of one loop
    nest with its ordered stage details; a loop whose disease is a literal
    is a table with that single entry.  [D6.data] is compared with the
    expansion of this list below. *)
Module Tables.

Record table : Type := Table {
  stagingSystem : string;
  category : string;
  entries : list (str * str);
  stages : list value
}.

Definition single (disease icd_code : string) : list (str * str) :=
  [(lit disease, lit icd_code)].

Definition tables : list table := [
  Table "TNM" "肿瘤分期" (items D6.tnm_diseases) D6.tnm_stages;
  Table "NYHA" "心功能分级" (items D6.nyha_diseases) D6.nyha_stages;
  Table "CKD" "肾病分期" (items D6.ckd_diseases) D6.ckd_stages;
  Table "GOLD" "肺病分级" (single "慢性阻塞性肺疾病" "J44") D6.gold_stages;
  Table "Child-Pugh" "肝病分级" (items D6.child_pugh_diseases) D6.child_pugh_stages;
  Table "分级" "心血管分级" (single "高血压" "I10") D6.hypertension_grade_stages;
  Table "危险分层" "心血管分级" (single "高血压" "I10") D6.hypertension_risk_stages;
  Table "分期" "糖尿病并发症分期" (single "糖尿病视网膜病变" "E10.3") D6.retinopathy_stages;
  Table "分期" "糖尿病并发症分期" (single "糖尿病肾病" "E10.2") D6.nephropathy_stages;
  Table "分期" "糖尿病并发症分期" (single "糖尿病周围神经病变" "E10.4") D6.neuropathy_stages;
  Table "分度" "创伤分度" (single "烧伤" "T30") D6.burn_stages;
  Table "AO分型" "骨折分型" (items D6.ao_fractures) D6.ao_stages;
  Table "ECOG PS" "一般状况评分" (single "肿瘤患者一般状况" "Z08.8") D6.ecog_stages;
  Table "GCS" "神经功能评分" (single "意识障碍" "R40.2") D6.gcs_stages;
  Table "ASA PS" "麻醉风险评估" (single "麻醉风险评估" "Z01.8") D6.asa_stages;
  Table "Forrest" "消化道出血分级" (single "消化性溃疡出血" "K27.4") D6.forrest_stages;
  Table "mRS" "神经功能评分" (single "脑卒中功能预后" "I63") D6.mrs_stages
].

(** The records of one (disease, code) entry, one per stage detail. *)
Definition entry_records (t : table) (entry : str * str) : list value :=
  map (fun stage_info =>
         D6.record entry.1 entry.2 (stagingSystem t) stage_info (category t))
      (stages t).

(** The records of a table: entries in table order, stages in list order. *)
Definition expand (t : table) : list value :=
  flat_map (entry_records t) (entries t).

(** The number of (disease, stage-detail) pairs of a table. *)
Definition pairs (t : table) : nat := (length (entries t) * length (stages t))%nat.

End Tables.

(** The list a run of the SOAP loop builds when no name is empty. *)
Definition soap_records : list value :=
  match D2.soap_templates with
  | Ok l => l
  | Raise _ => []
  end.

(** Selecting records by the text of a field. *)
Definition has_str (k : string) (s : string) (r : value) : bool :=
  bool_decide (str_field k r = Some (lit s)).

(** The stage label of a staging record: the ["stage"] of the only element
    of its ["stages"] list. *)
Definition stage_label (r : value) : option str :=
  match list_field "stages" r with
  | Some [stage_info] => str_field "stage" stage_info
  | _ => None
  end.

(** A list of (key, value) pairs in which equal keys have equal values. *)
Definition functional_pairs {K V} `{EqDecision K, EqDecision V}
    (ps : list (K * V)) : bool :=
  forallb (fun p1 =>
    forallb (fun p2 =>
      implb (bool_decide (p1.1 = p2.1)) (bool_decide (p1.2 = p2.2))) ps) ps.

(** The disease name and the code of a record. *)
Definition disease_code (r : value) : option str * option str :=
  (str_field "disease" r, str_field "icdCode" r).

(** What a run leaves behind. *)
Definition outcome (gen : io unit) (w : world) : result unit := (gen w).1.
Definition after (gen : io unit) (w : world) : world := (gen w).2.

Definition content (w : world) (path : string) : option (list N) :=
  match fs w !! path with
  | Some (File bytes) => Some bytes
  | _ => None
  end.

(** The output directory exists and the output path is free or a file. *)
Definition writable (w : world) (path : string) : Prop :=
  fs w !! path ≠ Some Dir ∧ parent w path = Some Dir.

(** A generator that, wherever [path] is writable, ends normally and changes
    the file system only by leaving [bytes] at [path]. *)
Definition writes (gen : io unit) (path : string) (bytes : list N) : Prop :=
  ∀ w, writable w path →
       outcome gen w = Ok () ∧ fs (after gen w) = <[path := File bytes]> (fs w).

(** An action that only prints. *)
Definition prints (k : io unit) : Prop :=
  ∀ w, (k w).1 = Ok () ∧ fs (k w).2 = fs w.

(** Two worlds for trying the generators: an empty output directory, and one
    that holds a stale staging file and some earlier output. *)
Definition world_fresh : world :=
  {| fs := {[ "data"%string := Dir ]}; stdout := [] |}.

Definition world_stale : world :=
  {| fs := <[ D6.output_path := File [91; 93] ]> {[ "data"%string := Dir ]};
     stdout := [lit "earlier"] |}.

(** Two runs of a generator from the worlds [w1] and [w2], and a third one
    right after the first: all succeed and leave the same bytes at [path],
    the UTF-8 encoding of the JSON text of the list [data], and the third
    changes no file. *)
Definition same_output (gen : io unit) (path : string) (data : list value)
    (w1 w2 : world) : Prop :=
  outcome gen w1 = Ok () ∧ outcome gen w2 = Ok () ∧
  is_Some (content (after gen w1) path) ∧
  content (after gen w1) path = utf8_encode (Json.dumps (VList data)) ∧
  content (after gen w1) path = content (after gen w2) path ∧
  outcome gen (after gen w1) = Ok () ∧
  fs (after gen (after gen w1)) = fs (after gen w1).

(** ** Further vocabulary *)

(** The keys of a record, in the order [json.dump] writes them. *)
Definition keys (r : value) : option (list str) :=
  match r with
  | VDict d => Some d.*1
  | _ => None
  end.

(** The five fields of a staging record. *)
Definition summary (r : value)
  : option str * option str * option str * option (list value) * option str :=
  (str_field "disease" r, str_field "icdCode" r, str_field "stagingSystem" r,
   list_field "stages" r, str_field "category" r).

(** What identifies a staging record: disease, staging system, stage. *)
Definition triple (r : value) : option str * option str * option str :=
  (str_field "disease" r, str_field "stagingSystem" r, stage_label r).

Definition system_category (r : value) : option str * option str :=
  (str_field "stagingSystem" r, str_field "category" r).

(** The text items of a list field such as ["aliases"] or ["wards"]. *)
Definition str_items (k : string) (r : value) : list (option str) :=
  match list_field k r with
  | Some l => map (fun v => match v with VStr s => Some s | _ => None end) l
  | None => []
  end.

(** The keys of the one stage of a staging record. *)
Definition stage_keys (r : value) : option (list str) :=
  match list_field "stages" r with
  | Some [stage_info] => keys stage_info
  | _ => None
  end.

(** The three scripts with their output paths. *)
Definition generators : list (io unit * string) := [
  (D2.generate_d2_soap_templates, D2.output_path);
  (D6.generate_d6_disease_staging, D6.output_path);
  (D8.generate_d8_department_mapping, D8.output_path)
].

(** The exception of [open(path, "w")] where [path] is not writable. *)
Definition open_error (w : world) (path : string) : exn :=
  match fs w !! path with
  | Some Dir => IsADirectoryError
  | _ =>
    match parent w path with
    | Some (File _) => NotADirectoryError
    | _ => FileNotFoundError
    end
  end.

(** A world without the output directory. *)
Definition world_empty : world := {| fs := ∅; stdout := [lit "earlier"] |}.

(** The characters that [json.dump] writes as they are. *)
Definition plain (c : codepoint) : bool :=
  negb ((c =? 34) || (c =? 92) || (c <? 32)).

(** All numbers of [n] more bits after the bits of [prefix] pass [p]. *)
Fixpoint all_bits (n : nat) (prefix : N) (p : N → bool) : bool :=
  match n with
  | O => p prefix
  | S n' => all_bits n' (2 * prefix) p && all_bits n' (2 * prefix + 1) p
  end.

(** * Properties *)

(** A decidable statement about the literal tables, settled by evaluation. *)
Ltac by_compute := apply (bool_decide_unpack _); vm_compute; exact I.

(** ** Strings *)

Example lit_gaoxueya : lit "高血压" = [39640; 34880; 21387].
Proof. reflexivity. Qed.

Example repr_int_examples :
  repr_int 0 = lit "0" ∧ repr_int 30 = lit "30" ∧ repr_int (-5) = lit "-5".
Proof. repeat split; reflexivity. Qed.

Lemma getitem_str_0 (c : codepoint) (s : str) : getitem_str (c :: s) 0 = Ok [c].
Proof. reflexivity. Qed.

(** ** JSON text *)

(** A list holding a dict with an int and a nested list, indented by two
    spaces per level; an empty list stays on one line. *)
Example dumps_nested :
  Json.dumps (VList [VDict [(lit "a", VInt 3);
                            (lit "b", VList [VStr (lit "x"); VList []])]])
  = [91; 10; 32; 32; 123; 10; 32; 32; 32; 32; 34; 97; 34; 58; 32; 51; 44;
     10; 32; 32; 32; 32; 34; 98; 34; 58; 32; 91; 10; 32; 32; 32; 32; 32;
     32; 34; 120; 34; 44; 10; 32; 32; 32; 32; 32; 32; 91; 93; 10; 32; 32;
     32; 32; 93; 10; 32; 32; 125; 10; 93].
Proof. reflexivity. Qed.

(** Non-ASCII text is written as it is, not escaped. *)
Example encode_basestring_keeps_text :
  Json.encode_basestring (lit "高血压") = [34] ++ lit "高血压" ++ [34].
Proof. reflexivity. Qed.

(** ** Dict literals *)

Lemma dict_set_fresh {V} (d : dict V) (k : str) (v : V) :
  k ∉ d.*1 → dict_set d k v = d ++ [(k, v)].
Proof.
  induction d as [|[k' v'] d IH]; [done|]. simpl.
  intros Hk. apply not_elem_of_cons in Hk as [Hne Hk].
  rewrite decide_False by congruence. by rewrite IH.
Qed.

Lemma dict_fill_distinct {V} (kvs d : list (str * V)) :
  NoDup (d ++ kvs).*1 →
  fold_left (fun d kv => dict_set d kv.1 kv.2) kvs d = d ++ kvs.
Proof.
  revert d. induction kvs as [|[k v] kvs IH]; intros d Hnd; simpl.
  - by rewrite app_nil_r.
  - rewrite dict_set_fresh.
    + rewrite IH; rewrite <- app_assoc; done.
    + rewrite fmap_app in Hnd. apply NoDup_app in Hnd as (_ & Hd & _).
      intros Hk. apply (Hd k Hk). simpl. left.
Qed.

(** A literal whose keys are all different lists its entries as written. *)
Lemma dict_literal_distinct {V} (kvs : list (str * V)) :
  NoDup kvs.*1 → items (dict_literal kvs) = kvs.
Proof. intros Hnd. unfold items, dict_literal. by rewrite dict_fill_distinct. Qed.

(** A repeated key keeps its first position and its last value. *)
Example dict_literal_repeated_key :
  dict_literal [(lit "a", 1%Z); (lit "b", 2%Z); (lit "a", 3%Z)]
  = [(lit "a", 3%Z); (lit "b", 2%Z)].
Proof. reflexivity. Qed.

(** ** Loops *)

Section Loops.
Context {A B : Type}.

Lemma for_each_append (f : A → B) (xs : list A) (data : list B) :
  for_each xs (fun x data => append data (f x)) data = data ++ map f xs.
Proof.
  unfold for_each. revert data.
  induction xs as [|x xs IH]; intros data; simpl.
  - by rewrite app_nil_r.
  - rewrite IH. unfold append. by rewrite <- app_assoc.
Qed.

Lemma for_each_extend (f : A → list B) (xs : list A) (data : list B) :
  for_each xs (fun x data => data ++ f x) data = data ++ flat_map f xs.
Proof.
  unfold for_each. revert data.
  induction xs as [|x xs IH]; intros data; simpl.
  - by rewrite app_nil_r.
  - rewrite IH. by rewrite <- app_assoc.
Qed.

Lemma for_each_ext {S : Type} (body body' : A → S → S) (xs : list A) (s : S) :
  (∀ x s, body x s = body' x s) →
  for_each xs body s = for_each xs body' s.
Proof.
  intros Hext. unfold for_each. revert s.
  induction xs as [|x xs IH]; intros s; simpl; [done|].
  by rewrite Hext, IH.
Qed.

(** A loop that appends [f x] for every [x], [f] possibly raising. *)
Lemma for_in_append (f : A → result B) (xs : list A) (ys data : list B) :
  Forall2 (fun x y => f x = Ok y) xs ys →
  for_in xs (fun x data => y ← f x; mret (append data y)) data
  = Ok (data ++ ys).
Proof.
  intros H. revert data.
  induction H as [|x y xs ys Hxy _ IH]; intros data; simpl.
  - by rewrite app_nil_r.
  - rewrite Hxy. simpl. rewrite IH. unfold append. by rewrite <- app_assoc.
Qed.

Lemma for_in_raises (f : A → result B) (xs1 xs2 : list A) (x : A)
    (ys data : list B) (e : exn) :
  Forall2 (fun x y => f x = Ok y) xs1 ys →
  f x = Raise e →
  for_in (xs1 ++ x :: xs2) (fun x data => y ← f x; mret (append data y)) data
  = Raise e.
Proof.
  intros H Hx. revert data.
  induction H as [|x1 y xs ys Hxy _ IH]; intros data; simpl.
  - by rewrite Hx.
  - rewrite Hxy. simpl. apply IH.
Qed.
End Loops.

Lemma functional_pairs_spec {K V} `{EqDecision K, EqDecision V}
    (ps : list (K * V)) (p1 p2 : K * V) :
  functional_pairs ps = true → p1 ∈ ps → p2 ∈ ps → p1.1 = p2.1 → p1.2 = p2.2.
Proof.
  unfold functional_pairs. rewrite forallb_forall.
  intros Hall H1 H2 Hk.
  apply list_elem_of_In in H1, H2.
  specialize (Hall p1 H1). rewrite forallb_forall in Hall.
  specialize (Hall p2 H2).
  rewrite (bool_decide_eq_true_2 _ Hk) in Hall. simpl in Hall.
  by apply bool_decide_eq_true_1 in Hall.
Qed.

(** ** The SOAP template generator *)

Lemma template_fields (c : codepoint) (s : str) :
  ∃ r, D2.template (c :: s) = Ok r ∧
       str_field "disease" r = Some (c :: s) ∧
       str_field "icdCode" r
       = Some (lit "ICD-" ++ [c] ++ repr_int (len (c :: s))) ∧
       str_field "subjective" r
       = Some ((c :: s) ++ lit "相关主诉：例如头晕、头痛、乏力等，持续X天/月/年...").
Proof. eexists. split; [reflexivity|]. repeat split; reflexivity. Qed.

Lemma template_empty : D2.template [] = Raise IndexError.
Proof. reflexivity. Qed.

Lemma template_disease (d : str) (r : value) :
  D2.template d = Ok r → str_field "disease" r = Some d.
Proof.
  destruct d as [|c s]; [by rewrite template_empty|].
  destruct (template_fields c s) as (r' & Hr' & Hd & _).
  intros Hr. rewrite Hr' in Hr. by injection Hr as <-.
Qed.

(** Every name non-empty: the loop ends normally with one record per name,
    in the order of the names. *)
Lemma build_ok (ds : list str) :
  Forall (fun d => d ≠ []) ds →
  ∃ l, D2.build ds = Ok l ∧ Forall2 (fun d r => D2.template d = Ok r) ds l.
Proof.
  intros Hne.
  assert (∃ l, Forall2 (fun d r => D2.template d = Ok r) ds l) as [l Hl].
  { induction Hne as [|d ds Hd _ [l IH]]; [by exists []|].
    destruct d as [|c s]; [done|].
    destruct (template_fields c s) as (r & Hr & _).
    exists (r :: l). by constructor. }
  exists l. split; [|done].
  unfold D2.build. by rewrite (for_in_append D2.template ds l []).
Qed.

(** An empty name ends the loop with [IndexError]. *)
Lemma build_empty_name (ds1 ds2 : list str) :
  Forall (fun d => d ≠ []) ds1 →
  D2.build (ds1 ++ [] :: ds2) = Raise IndexError.
Proof.
  intros Hne. destruct (build_ok ds1 Hne) as (l & _ & Hl).
  unfold D2.build. by apply for_in_raises with (ys := l).
Qed.

Lemma build_diseases (ds : list str) (l : list value) :
  Forall2 (fun d r => D2.template d = Ok r) ds l →
  map (str_field "disease") l = map Some ds.
Proof.
  induction 1 as [|d r ds l Hr _ IH]; [done|].
  simpl. by rewrite (template_disease d r Hr), IH.
Qed.

Lemma diseases_nonempty : Forall (fun d => d ≠ []) D2.diseases.
Proof. by_compute. Qed.

Lemma diseases_NoDup : NoDup D2.diseases.
Proof. by_compute. Qed.

Lemma soap_templates_ok : D2.soap_templates = Ok soap_records.
Proof.
  destruct (build_ok D2.diseases diseases_nonempty) as (l & Hl & _).
  unfold soap_records, D2.soap_templates. by rewrite Hl.
Qed.

Lemma soap_one_record_per_disease_aux :
  ∃ l, D2.soap_templates = Ok l ∧ NoDup (map (str_field "disease") l).
Proof.
  destruct (build_ok D2.diseases diseases_nonempty) as (l & Hl & Hall).
  exists l. split; [done|].
  rewrite (build_diseases _ _ Hall).
  apply (NoDup_fmap_2 Some). apply diseases_NoDup.
Qed.

(** C6: the SOAP generator produces one record per disease name of its input
    list, in the order of that list, and no two records have the same
    [disease] field. *)
Theorem soap_one_record_per_disease :
  ∃ l, D2.soap_templates = Ok l ∧
       length l = length D2.diseases ∧
       map (str_field "disease") l = map Some D2.diseases ∧
       NoDup (map (str_field "disease") l).
Proof.
  destruct (build_ok D2.diseases diseases_nonempty) as (l & Hl & Hall).
  exists l. split; [done|].
  pose proof (build_diseases _ _ Hall) as Hmap.
  repeat split.
  - symmetry. by eapply Forall2_length.
  - done.
  - rewrite Hmap. apply (NoDup_fmap_2 Some). apply diseases_NoDup.
Qed.

(** C1, as the code has it: the name ["高血压"] has three characters, so its
    single record has the code ["ICD-高3"]; its [subjective] text contains
    ["高血压相关主诉"]. *)
Theorem soap_gaoxueya_record :
  ∃ l r subjective,
    D2.soap_templates = Ok l ∧
    List.filter (has_str "disease" "高血压") l = [r] ∧
    len (lit "高血压") = 3%Z ∧
    getitem_str (lit "高血压") 0 = Ok (lit "高") ∧
    str_field "icdCode" r = Some (lit "ICD-高3") ∧
    str_field "subjective" r = Some subjective ∧
    contains (lit "高血压相关主诉") subjective = true.
Proof.
  exists soap_records. do 2 eexists.
  split; [apply soap_templates_ok|].
  split; [vm_compute; reflexivity|].
  repeat split; vm_compute; reflexivity.
Qed.

(** C1 as stated fails: the length of ["高血压"] is not 2, and no record of
    the output has the disease ["高血压"] and the code ["ICD-高2"]. *)
Lemma soap_gaoxueya_code_is_not_2 :
  len (lit "高血压") ≠ 2%Z ∧
  ¬ ∃ l r, D2.soap_templates = Ok l ∧ r ∈ l ∧
           str_field "disease" r = Some (lit "高血压") ∧
           str_field "icdCode" r = Some (lit "ICD-高2").
Proof.
  split; [vm_compute; discriminate|].
  intros (l & r & Hl & Hin & Hd & Hc).
  rewrite soap_templates_ok in Hl. injection Hl as <-.
  assert (Forall (fun r => str_field "disease" r = Some (lit "高血压") →
                           str_field "icdCode" r ≠ Some (lit "ICD-高2"))
                 soap_records) as Hall.
  { by_compute. }
  rewrite Forall_forall in Hall. by apply (Hall r Hin Hd).
Qed.

(** C10: the placeholder code is not unique although the disease name is:
    the records of ["肺炎"] and ["肺癌"] both have the code ["ICD-肺2"]. *)
Theorem soap_icd_code_shared :
  ∃ l r1 r2,
    D2.soap_templates = Ok l ∧
    l !! 6%nat = Some r1 ∧ l !! 23%nat = Some r2 ∧
    str_field "disease" r1 = Some (lit "肺炎") ∧
    str_field "disease" r2 = Some (lit "肺癌") ∧
    str_field "disease" r1 ≠ str_field "disease" r2 ∧
    str_field "icdCode" r1 = Some (lit "ICD-肺2") ∧
    str_field "icdCode" r2 = Some (lit "ICD-肺2") ∧
    NoDup (map (str_field "disease") l).
Proof.
  exists soap_records. do 2 eexists.
  split; [apply soap_templates_ok|].
  split; [vm_compute; reflexivity|].
  split; [vm_compute; reflexivity|].
  repeat split; try (vm_compute; reflexivity).
  - vm_compute. discriminate.
  - destruct soap_one_record_per_disease_aux as (l & Hl & Hnd).
    rewrite soap_templates_ok in Hl. by injection Hl as <-.
Qed.

(** ** The disease staging generator *)

Lemma single_loop_spec (disease icd_code : string) (stages : list value)
    (stagingSystem category : string) (data : list value) :
  D6.single_loop disease icd_code stages stagingSystem category data
  = data ++ Tables.expand
              (Tables.Table stagingSystem category
                 (Tables.single disease icd_code) stages).
Proof.
  unfold D6.single_loop, Tables.expand, Tables.entry_records. simpl.
  rewrite app_nil_r. apply for_each_append.
Qed.

Lemma table_loop_spec (diseases : dict str) (stages : list value)
    (stagingSystem category : string) (data : list value) :
  D6.table_loop diseases stages stagingSystem category data
  = data ++ Tables.expand
              (Tables.Table stagingSystem category (items diseases) stages).
Proof.
  unfold D6.table_loop, Tables.expand.
  rewrite <- for_each_extend. apply for_each_ext.
  intros item acc. apply for_each_append.
Qed.

(** The seventeen loops of the script build the expansion of the tables, in
    table order. *)
Lemma data_expand : D6.data = flat_map Tables.expand Tables.tables.
Proof.
  rewrite <- (app_nil_l (flat_map _ _)), <- for_each_extend.
  unfold D6.data.
  rewrite !table_loop_spec, !single_loop_spec.
  unfold for_each, Tables.tables. cbn [fold_left]. reflexivity.
Qed.

Lemma expand_length (t : Tables.table) :
  length (Tables.expand t) = Tables.pairs t.
Proof.
  unfold Tables.expand, Tables.pairs.
  induction (Tables.entries t) as [|entry es IH]; [done|].
  simpl. rewrite length_app, IH.
  unfold Tables.entry_records. by rewrite length_map.
Qed.

Lemma expand_all_length (ts : list Tables.table) :
  length (flat_map Tables.expand ts) = sum_list (map Tables.pairs ts).
Proof.
  induction ts as [|t ts IH]; [done|].
  simpl. by rewrite length_app, expand_length, IH.
Qed.

Lemma record_fields (disease icd_code : str) (stagingSystem : string)
    (stage_info : value) (category : string) :
  let r := D6.record disease icd_code stagingSystem stage_info category in
  str_field "disease" r = Some disease ∧
  str_field "icdCode" r = Some icd_code ∧
  str_field "stagingSystem" r = Some (lit stagingSystem) ∧
  list_field "stages" r = Some [stage_info] ∧
  str_field "category" r = Some (lit category).
Proof. repeat split; reflexivity. Qed.

Lemma Forall_expand (P : value → Prop) (ts : list Tables.table) :
  (∀ disease icd_code stagingSystem stage_info category,
     P (D6.record disease icd_code stagingSystem stage_info category)) →
  Forall P (flat_map Tables.expand ts).
Proof.
  intros HP. induction ts as [|t ts IH]; [constructor|].
  simpl. apply Forall_app. split; [|done].
  unfold Tables.expand.
  induction (Tables.entries t) as [|entry es IHes]; [constructor|].
  simpl. apply Forall_app. split; [|done].
  unfold Tables.entry_records. apply Forall_fmap, Forall_forall.
  intros stage_info _. apply HP.
Qed.

(** C2: each generator produces as many records as its literal tables define
    pairs: the SOAP generator one per name of its 30 names, the staging
    generator the sum over the tables of (entries x stage details), the
    department generator one per department literal. *)
Theorem record_counts :
  (∃ l, D2.soap_templates = Ok l ∧
        length l = length D2.diseases ∧ length D2.diseases = 30%nat) ∧
  length D6.data = sum_list (map Tables.pairs Tables.tables) ∧
  map Tables.pairs Tables.tables
  = [15 * 4; 3 * 4; 3 * 5; 1 * 4; 2 * 3; 1 * 3; 1 * 4; 1 * 3; 1 * 5; 1 * 3;
     1 * 4; 15 * 3; 1 * 5; 1 * 3; 1 * 6; 1 * 6; 1 * 7]%nat ∧
  length D6.data = 191%nat ∧
  length D8.data = 32%nat.
Proof.
  split.
  { destruct (build_ok D2.diseases diseases_nonempty) as (l & Hl & Hall).
    exists l. split; [done|]. split; [|reflexivity].
    symmetry. by eapply Forall2_length. }
  rewrite data_expand, expand_all_length.
  repeat split; reflexivity.
Qed.

(** C4: every record of the staging output has a [stages] list of length
    exactly 1. *)
Theorem staging_stages_singleton :
  Forall (fun r => length <$> list_field "stages" r = Some 1%nat) D6.data.
Proof.
  rewrite data_expand. apply Forall_expand. intros.
  by destruct (record_fields disease icd_code stagingSystem stage_info category)
    as (_ & _ & _ & -> & _).
Qed.

(** C7: the staging output is one record per (disease, stage detail) pair,
    tables in script order, diseases in table order and stage details in
    authored order; ["心力衰竭"] under ["NYHA"] gives exactly the four
    records of the stages ["I级"], ["II级"], ["III级"], ["IV级"], in that order,
    each with the code ["I50"]. *)
Theorem staging_order :
  D6.data = flat_map Tables.expand Tables.tables ∧
  items D6.nyha_diseases
  = [(lit "心力衰竭", lit "I50"); (lit "风湿性心脏病", lit "I09");
     (lit "扩张型心肌病", lit "I42.0")] ∧
  ∃ r1 r2 r3 r4,
    List.filter (fun r => has_str "disease" "心力衰竭" r
                          && has_str "stagingSystem" "NYHA" r) D6.data
    = [r1; r2; r3; r4] ∧
    map stage_label [r1; r2; r3; r4]
    = map (fun s => Some (lit s)) ["I级"; "II级"; "III级"; "IV级"]%string ∧
    map (str_field "icdCode") [r1; r2; r3; r4]
    = [Some (lit "I50"); Some (lit "I50"); Some (lit "I50"); Some (lit "I50")].
Proof.
  split; [apply data_expand|].
  split; [apply dict_literal_distinct; by_compute|].
  do 4 eexists. split; [vm_compute; reflexivity|].
  split; vm_compute; reflexivity.
Qed.

Lemma staging_pairs_functional :
  functional_pairs (disease_code <$> D6.data) = true.
Proof. vm_compute. reflexivity. Qed.

(** C9: in the staging output the code is a function of the disease name:
    two records with the same [disease] have the same [icdCode]. *)
Theorem staging_icd_of_disease (r1 r2 : value) :
  r1 ∈ D6.data → r2 ∈ D6.data →
  str_field "disease" r1 = str_field "disease" r2 →
  str_field "icdCode" r1 = str_field "icdCode" r2.
Proof.
  intros H1 H2.
  apply (functional_pairs_spec (disease_code <$> D6.data)
           (disease_code r1) (disease_code r2)).
  - apply staging_pairs_functional.
  - by apply list_elem_of_fmap_2.
  - by apply list_elem_of_fmap_2.
Qed.

(** ["高血压"] under ["分级"] and under ["危险分层"]: both records have the
    code ["I10"]. *)
Lemma staging_icd_of_disease_witness :
  ∃ r1 r2,
    D6.data !! 97%nat = Some r1 ∧ D6.data !! 100%nat = Some r2 ∧
    str_field "stagingSystem" r1 = Some (lit "分级") ∧
    str_field "stagingSystem" r2 = Some (lit "危险分层") ∧
    str_field "disease" r1 = str_field "disease" r2 ∧
    str_field "icdCode" r1 = str_field "icdCode" r2.
Proof.
  do 2 eexists.
  split; [vm_compute; reflexivity|].
  split; [vm_compute; reflexivity|].
  split; [vm_compute; reflexivity|].
  split; [vm_compute; reflexivity|].
  split; [vm_compute; reflexivity|].
  apply staging_icd_of_disease.
  - apply (list_elem_of_lookup_2 _ 97%nat). vm_compute; reflexivity.
  - apply (list_elem_of_lookup_2 _ 100%nat). vm_compute; reflexivity.
  - vm_compute; reflexivity.
Defined.

(** ** The department mapping generator *)

Lemma department_codes_NoDup :
  NoDup (str_field "departmentCode" <$> D8.data).
Proof. by_compute. Qed.

Lemma department_codes_present :
  Forall (fun r => is_Some (str_field "departmentCode" r)) D8.data.
Proof. by_compute. Qed.

(** C5: two records at different positions of the department output have
    different department codes. *)
Theorem department_codes_unique (i j : nat) (r1 r2 : value) :
  D8.data !! i = Some r1 → D8.data !! j = Some r2 → i ≠ j →
  ∃ c1 c2, str_field "departmentCode" r1 = Some c1 ∧
           str_field "departmentCode" r2 = Some c2 ∧ c1 ≠ c2.
Proof.
  intros H1 H2 Hij.
  pose proof department_codes_present as Hsome.
  rewrite Forall_forall in Hsome.
  destruct (Hsome r1 (list_elem_of_lookup_2 _ _ _ H1)) as [c1 Hc1].
  destruct (Hsome r2 (list_elem_of_lookup_2 _ _ _ H2)) as [c2 Hc2].
  exists c1, c2. split; [done|]. split; [done|].
  intros ->. apply Hij.
  pose proof department_codes_NoDup as Hnd.
  rewrite NoDup_alt in Hnd.
  apply (Hnd i j (Some c2)); rewrite list_lookup_fmap.
  - by rewrite H1, <- Hc1.
  - by rewrite H2, <- Hc2.
Qed.

(** The first two departments: ["ICU"] and ["ER"]. *)
Lemma department_codes_unique_witness :
  ∃ r1 r2,
    D8.data !! 0%nat = Some r1 ∧ D8.data !! 1%nat = Some r2 ∧ 0%nat ≠ 1%nat ∧
    ∃ c1 c2, str_field "departmentCode" r1 = Some c1 ∧
             str_field "departmentCode" r2 = Some c2 ∧ c1 ≠ c2.
Proof.
  do 2 eexists.
  split; [reflexivity|]. split; [reflexivity|]. split; [lia|].
  apply (department_codes_unique 0 1); [reflexivity | reflexivity | lia].
Defined.

(** C8: every department record has a non-negative [bedCount], and a
    [bedCount] of 0 comes with an empty [wards] list. *)
Theorem department_beds :
  Forall (fun r => ∃ n, int_field "bedCount" r = Some n ∧ (0 ≤ n)%Z ∧
                        (n = 0%Z → list_field "wards" r = Some []))
         D8.data.
Proof.
  unfold D8.data.
  repeat (constructor;
          [eexists; split; [reflexivity|]; split; [lia|];
           first [ intros _; reflexivity | intros [=] ] |]).
  constructor.
Qed.

(** ** Writing the output *)

Lemma utf8_encode_cp_scalar (c : codepoint) :
  scalar c = true → is_Some (utf8_encode_cp c).
Proof.
  unfold scalar, utf8_encode_cp. intros Hc.
  repeat case_match; try by eexists.
  all: exfalso; repeat match goal with
       | H : (_ <? _) = _ |- _ => first [apply N.ltb_lt in H | apply N.ltb_ge in H]
       | H : (_ <=? _) = _ |- _ => first [apply N.leb_le in H | apply N.leb_gt in H]
       | H : _ && _ = true |- _ => apply andb_true_iff in H as [? ?]
       | H : _ || _ = true |- _ => apply orb_true_iff in H as [?|?]
       end; lia.
Qed.

Lemma utf8_encode_scalars (s : str) :
  forallb scalar s = true → is_Some (utf8_encode s).
Proof.
  induction s as [|c s IH]; simpl; [by eexists|].
  intros [Hc Hs]%andb_true_iff.
  destruct (utf8_encode_cp_scalar c Hc) as [bs ->].
  destruct (IH Hs) as [rest ->]. by eexists.
Qed.

Lemma has_slash_nonempty (p : string) : has_slash p = true → p ≠ EmptyString.
Proof. by destruct p. Qed.

Lemma dirname_shorter (p : string) :
  p ≠ EmptyString → (String.length (dirname p) < String.length p)%nat.
Proof.
  induction p as [|c p IH]; [done|]. intros _. simpl.
  destruct (has_slash p) eqn:Hslash; simpl; [|lia].
  apply has_slash_nonempty in Hslash. specialize (IH Hslash). lia.
Qed.

Lemma write_text_ok (path : string) (text : str) (bytes : list N) (w : world) :
  writable w path → utf8_encode text = Some bytes →
  write_text path text w
  = (Ok (), {| fs := <[path := File bytes]> (fs w); stdout := stdout w |}).
Proof.
  intros [Hnode Hparent] Henc. unfold write_text.
  rewrite Hparent, Henc. by destruct (fs w !! path) as [[|?]|].
Qed.

(** Without the output directory nothing is written. *)
Lemma write_text_no_directory (path : string) (text : str) (w : world) :
  fs w !! path = None → parent w path = None →
  write_text path text w = (Raise FileNotFoundError, w).
Proof. intros Hnode Hparent. unfold write_text. by rewrite Hnode, Hparent. Qed.

Lemma writable_after (path : string) (bytes : list N) (w w' : world) :
  writable w path → fs w' = <[path := File bytes]> (fs w) → writable w' path.
Proof.
  intros [_ Hparent] Hfs. unfold writable, parent in *. rewrite Hfs. split.
  - by rewrite lookup_insert_eq.
  - destruct (dirname path) as [|c d] eqn:Hdir; [done|].
    rewrite lookup_insert_ne; [done|].
    intros Heq. assert (path ≠ EmptyString) as Hne by (by rewrite Heq).
    apply dirname_shorter in Hne. rewrite Hdir, <- Heq in Hne. lia.
Qed.

Lemma prints_print (line : str) : prints (print line).
Proof. by intros w. Qed.

Lemma prints_then (k1 k2 : io unit) :
  prints k1 → prints k2 → prints (k1 ;; k2).
Proof.
  intros H1 H2 w. unfold mbind, io_bind.
  destruct (H1 w) as [Hok Hfs]. destruct (k1 w) as [[[]|e] w1]; [|done].
  simpl in Hfs. destruct (H2 w1) as [Hok2 Hfs2]. by rewrite <- Hfs.
Qed.

(** The shape of the three scripts: dump the list, then report. *)
Lemma dump_then_report (path : string) (data : list value) (bytes : list N)
    (report : io unit) :
  utf8_encode (Json.dumps (VList data)) = Some bytes → prints report →
  writes (dump_json path data ;; report) path bytes.
Proof.
  intros Henc Hreport w Hw.
  unfold outcome, after, mbind, io_bind, dump_json.
  rewrite (write_text_ok path _ bytes w Hw Henc).
  destruct (Hreport {| fs := <[path := File bytes]> (fs w);
                       stdout := stdout w |}) as [Hok Hfs].
  by split.
Qed.

Lemma writes_same_output (gen : io unit) (path : string) (data : list value)
    (bytes : list N) (w1 w2 : world) :
  utf8_encode (Json.dumps (VList data)) = Some bytes →
  writes gen path bytes → writable w1 path → writable w2 path →
  same_output gen path data w1 w2.
Proof.
  intros Henc Hgen Hw1 Hw2.
  destruct (Hgen w1 Hw1) as [Hok1 Hfs1]. destruct (Hgen w2 Hw2) as [Hok2 Hfs2].
  pose proof (writable_after path bytes w1 _ Hw1 Hfs1) as Hw1'.
  destruct (Hgen _ Hw1') as [Hok3 Hfs3].
  assert (content (after gen w1) path = Some bytes) as Hc1.
  { unfold content. by rewrite Hfs1, lookup_insert_eq. }
  assert (content (after gen w2) path = Some bytes) as Hc2.
  { unfold content. by rewrite Hfs2, lookup_insert_eq. }
  unfold same_output. rewrite Hc1, Hc2, Henc.
  repeat split; [done|done|by eexists|done|].
  rewrite Hfs3, Hfs1. apply insert_insert_eq.
Qed.

Lemma d2_writes :
  ∃ bytes, utf8_encode (Json.dumps (VList soap_records)) = Some bytes ∧
           writes D2.generate_d2_soap_templates D2.output_path bytes.
Proof.
  destruct (utf8_encode_scalars (Json.dumps (VList soap_records))) as [bytes Henc];
    [vm_compute; reflexivity|].
  exists bytes. split; [exact Henc|].
  intros w Hw. unfold D2.generate_d2_soap_templates, outcome, after.
  unfold mbind at 1. unfold io_bind at 1. unfold lift.
  rewrite soap_templates_ok.
  apply (dump_then_report D2.output_path soap_records bytes _ Henc);
    [|exact Hw].
  apply prints_then; apply prints_print.
Qed.

Lemma d6_writes :
  ∃ bytes, utf8_encode (Json.dumps (VList D6.data)) = Some bytes ∧
           writes D6.generate_d6_disease_staging D6.output_path bytes.
Proof.
  destruct (utf8_encode_scalars (Json.dumps (VList D6.data))) as [bytes Henc];
    [vm_compute; reflexivity|].
  exists bytes. split; [exact Henc|].
  apply dump_then_report; [exact Henc|apply prints_print].
Qed.

Lemma d8_writes :
  ∃ bytes, utf8_encode (Json.dumps (VList D8.data)) = Some bytes ∧
           writes D8.generate_d8_department_mapping D8.output_path bytes.
Proof.
  destruct (utf8_encode_scalars (Json.dumps (VList D8.data))) as [bytes Henc];
    [vm_compute; reflexivity|].
  exists bytes. split; [exact Henc|].
  apply dump_then_report; [exact Henc|apply prints_print].
Qed.

(** C3: the generators are deterministic: from any two worlds in which the
    output paths are writable, each generator ends normally and leaves the
    same bytes in its output file, the encoded JSON text of its record list,
    and running it once more changes no file. *)
Theorem rerun_same_output (w1 w2 : world) :
  Forall (fun path => writable w1 path ∧ writable w2 path)
         [D2.output_path; D6.output_path; D8.output_path] →
  same_output D2.generate_d2_soap_templates D2.output_path soap_records
    w1 w2 ∧
  same_output D6.generate_d6_disease_staging D6.output_path D6.data w1 w2 ∧
  same_output D8.generate_d8_department_mapping D8.output_path D8.data w1 w2.
Proof.
  intros Hw.
  apply Forall_cons in Hw as [[H2a H2b] Hw].
  apply Forall_cons in Hw as [[H6a H6b] Hw].
  apply Forall_cons in Hw as [[H8a H8b] _].
  destruct d2_writes as (b2 & He2 & Hd2).
  destruct d6_writes as (b6 & He6 & Hd6).
  destruct d8_writes as (b8 & He8 & Hd8).
  split; [|split].
  - exact (writes_same_output _ _ _ b2 w1 w2 He2 Hd2 H2a H2b).
  - exact (writes_same_output _ _ _ b6 w1 w2 He6 Hd6 H6a H6b).
  - exact (writes_same_output _ _ _ b8 w1 w2 He8 Hd8 H8a H8b).
Qed.

Lemma worlds_writable :
  Forall (fun path => writable world_fresh path ∧ writable world_stale path)
         [D2.output_path; D6.output_path; D8.output_path].
Proof.
  repeat constructor; try (vm_compute; discriminate); vm_compute; reflexivity.
Defined.

(** A fresh output directory and one with a stale staging file. *)
Lemma rerun_same_output_witness :
  Forall (fun path => writable world_fresh path ∧ writable world_stale path)
         [D2.output_path; D6.output_path; D8.output_path] ∧
  same_output D2.generate_d2_soap_templates D2.output_path soap_records
    world_fresh world_stale ∧
  same_output D6.generate_d6_disease_staging D6.output_path D6.data
    world_fresh world_stale ∧
  same_output D8.generate_d8_department_mapping D8.output_path D8.data
    world_fresh world_stale.
Proof.
  split; [exact worlds_writable|].
  exact (rerun_same_output world_fresh world_stale worlds_writable).
Defined.

(** ** More on the SOAP template generator *)

Lemma build_step (d : str) (ds : list str) (acc : list value) :
  for_in (d :: ds)
    (fun disease soap_templates =>
       template ← D2.template disease;
       mret (append soap_templates template)) acc
  = match D2.template d with
    | Ok r =>
      for_in ds
        (fun disease soap_templates =>
           template ← D2.template disease;
           mret (append soap_templates template)) (acc ++ [r])
    | Raise e => Raise e
    end.
Proof. simpl. by destruct (D2.template d). Qed.

Lemma template_raises (d : str) (e : exn) :
  D2.template d = Raise e → d = [] ∧ e = IndexError.
Proof.
  destruct d as [|c s].
  - rewrite template_empty. by intros [= <-].
  - destruct (template_fields c s) as (r & -> & _). done.
Qed.

(** X1: for any list of non-empty names the SOAP loop ends normally with one
    record per name, the [disease] fields being the names in input order. *)
Theorem build_one_record_per_name (ds : list str) :
  Forall (fun d => d ≠ []) ds →
  ∃ l, D2.build ds = Ok l ∧ length l = length ds ∧
       map (str_field "disease") l = map Some ds.
Proof.
  intros Hne. destruct (build_ok ds Hne) as (l & Hl & Hall).
  exists l. split; [done|]. split.
  - symmetry. by eapply Forall2_length.
  - by apply build_diseases.
Qed.

(** Two names that are not in the script: ["感冒"] and ["flu"]. *)
Lemma build_one_record_per_name_witness :
  Forall (fun d => d ≠ []) [lit "感冒"; lit "flu"] ∧
  ∃ l, D2.build [lit "感冒"; lit "flu"] = Ok l ∧
       length l = length [lit "感冒"; lit "flu"] ∧
       map (str_field "disease") l = map Some [lit "感冒"; lit "flu"].
Proof.
  assert (Forall (fun d => d ≠ []) [lit "感冒"; lit "flu"]) as Hne.
  { repeat constructor; vm_compute; discriminate. }
  split; [exact Hne|]. exact (build_one_record_per_name _ Hne).
Defined.

(** X2: a list that holds an empty name makes the SOAP loop raise
    [IndexError], whatever the other names are. *)
Theorem build_empty_name_raises (ds : list str) :
  [] ∈ ds → D2.build ds = Raise IndexError.
Proof.
  unfold D2.build. generalize (@nil value) as acc.
  induction ds as [|d ds IH]; intros acc Hin.
  - by apply elem_of_nil in Hin.
  - rewrite build_step. destruct (D2.template d) as [r|e] eqn:Hd.
    + apply IH. apply elem_of_cons in Hin as [Heq|Hin]; [|done].
      subst d. by rewrite template_empty in Hd.
    + by destruct (template_raises d e Hd) as [_ ->].
Qed.

Lemma build_empty_name_raises_witness :
  [] ∈ [lit "肺炎"; []; lit "哮喘"] ∧
  D2.build [lit "肺炎"; []; lit "哮喘"] = Raise IndexError.
Proof.
  assert ([] ∈ [lit "肺炎"; []; lit "哮喘"]) as Hin.
  { apply list_elem_of_further, list_elem_of_here. }
  split; [exact Hin|]. exact (build_empty_name_raises _ Hin).
Defined.

(** Decimal numerals are ASCII text, and different numbers have different
    numerals. *)
Lemma utf8_decode_ascii (bs : list N) :
  Forall (fun b => b < 128) bs → utf8_decode bs = bs.
Proof.
  induction 1 as [|b bs Hb _ IH]; [done|].
  simpl. apply N.ltb_lt in Hb. by rewrite Hb, IH.
Qed.

Lemma string_of_uint_ascii (u : Decimal.uint) :
  Forall (fun b => b < 128) (bytes_of (NilEmpty.string_of_uint u)).
Proof.
  induction u; simpl; [constructor|..];
    (constructor; [by vm_compute|exact IHu]).
Qed.

Lemma string_of_int_ascii (i : Decimal.int) :
  Forall (fun b => b < 128) (bytes_of (NilEmpty.string_of_int i)).
Proof.
  destruct i as [u|u]; simpl; [apply string_of_uint_ascii|].
  constructor; [by vm_compute|apply string_of_uint_ascii].
Qed.

Lemma bytes_of_inj (s1 s2 : string) : bytes_of s1 = bytes_of s2 → s1 = s2.
Proof.
  unfold bytes_of. intros H.
  rewrite <- (string_of_list_ascii_of_string s1),
          <- (string_of_list_ascii_of_string s2).
  f_equal. revert H.
  generalize (list_ascii_of_string s1) (list_ascii_of_string s2).
  induction l as [|a l IH]; intros [|b l']; simpl; try done.
  intros [= Hab Hl]. f_equal; [|by apply IH].
  by rewrite <- (ascii_N_embedding a), <- (ascii_N_embedding b), Hab.
Qed.

Lemma repr_int_inj (z1 z2 : Z) : repr_int z1 = repr_int z2 → z1 = z2.
Proof.
  unfold repr_int, lit.
  rewrite !utf8_decode_ascii by apply string_of_int_ascii.
  intros H%bytes_of_inj.
  assert (Z.to_int z1 = Z.to_int z2) as Hint.
  { pose proof (NilEmpty.isi (Z.to_int z1)) as H1.
    pose proof (NilEmpty.isi (Z.to_int z2)) as H2.
    rewrite H in H1. congruence. }
  by rewrite <- (DecimalZ.of_to z1), <- (DecimalZ.of_to z2), Hint.
Qed.

(** X3: the placeholder code of a name depends on its first character and
    its length and on nothing else: two names get the same code exactly when
    they agree on both. *)
Theorem template_codes_collide (d1 d2 : str) (r1 r2 : value) :
  D2.template d1 = Ok r1 → D2.template d2 = Ok r2 →
  (str_field "icdCode" r1 = str_field "icdCode" r2
   ↔ head d1 = head d2 ∧ length d1 = length d2).
Proof.
  destruct d1 as [|c1 s1]; [by rewrite template_empty|].
  destruct d2 as [|c2 s2]; [by rewrite template_empty|].
  destruct (template_fields c1 s1) as (r1' & Hr1 & _ & Hc1 & _).
  destruct (template_fields c2 s2) as (r2' & Hr2 & _ & Hc2 & _).
  rewrite Hr1, Hr2. intros [= <-] [= <-]. rewrite Hc1, Hc2. split.
  - intros Hcode. apply (inj Some), app_inv_head in Hcode.
    cbn [app] in Hcode. injection Hcode as -> Hlen. split; [done|].
    apply repr_int_inj in Hlen. unfold len in Hlen. lia.
  - simpl. intros [[= ->] [= Hlen]]. unfold len. simpl. by rewrite Hlen.
Qed.

(** ["肺炎"] and ["肺癌"], which agree on the first character and on the
    length. *)
Lemma template_codes_collide_witness :
  ∃ r1 r2,
    D2.template (lit "肺炎") = Ok r1 ∧ D2.template (lit "肺癌") = Ok r2 ∧
    (str_field "icdCode" r1 = str_field "icdCode" r2
     ↔ head (lit "肺炎") = head (lit "肺癌")
       ∧ length (lit "肺炎") = length (lit "肺癌")).
Proof.
  do 2 eexists.
  split; [vm_compute; reflexivity|]. split; [vm_compute; reflexivity|].
  apply template_codes_collide; vm_compute; reflexivity.
Defined.

Lemma startswith_app (p s : str) : startswith p (p ++ s) = true.
Proof.
  induction p as [|c p IH]; [done|]. simpl. by rewrite N.eqb_refl, IH.
Qed.

Lemma template_texts (c : codepoint) (s : str) :
  ∃ r, D2.template (c :: s) = Ok r ∧
       (∃ rest, str_field "subjective" r = Some ((c :: s) ++ rest)) ∧
       (∃ rest, str_field "objective" r = Some ((c :: s) ++ rest)) ∧
       (∃ rest, str_field "assessment" r = Some ((c :: s) ++ rest)) ∧
       (∃ rest, str_field "plan" r = Some ((c :: s) ++ rest)).
Proof.
  eexists. split; [reflexivity|].
  repeat split; eexists; reflexivity.
Qed.

(** X4: each of the four free-text fields of a SOAP record begins with the
    disease name. *)
Theorem template_texts_begin_with_name (d : str) (r : value) :
  D2.template d = Ok r →
  Forall (fun k => ∃ text, str_field k r = Some text ∧ startswith d text = true)
         ["subjective"; "objective"; "assessment"; "plan"]%string.
Proof.
  destruct d as [|c s]; [by rewrite template_empty|].
  destruct (template_texts c s)
    as (r' & Hr & [t1 H1] & [t2 H2] & [t3 H3] & [t4 H4]).
  rewrite Hr. intros Heq. injection Heq as <-.
  repeat constructor;
    (eexists; split; [eassumption|apply startswith_app]).
Qed.

Lemma template_texts_begin_with_name_witness :
  ∃ r, D2.template (lit "感冒") = Ok r ∧
       Forall (fun k => ∃ text, str_field k r = Some text
                                ∧ startswith (lit "感冒") text = true)
              ["subjective"; "objective"; "assessment"; "plan"]%string.
Proof.
  eexists. split; [vm_compute; reflexivity|].
  apply template_texts_begin_with_name. vm_compute; reflexivity.
Defined.

(** ** More on the staging loops *)

Lemma summary_record (disease icd_code : str) (stagingSystem : string)
    (stage_info : value) (category : string) :
  summary (D6.record disease icd_code stagingSystem stage_info category)
  = (Some disease, Some icd_code, Some (lit stagingSystem),
     Some [stage_info], Some (lit category)).
Proof. reflexivity. Qed.

Lemma summary_expand (t : Tables.table) :
  map summary (Tables.expand t)
  = flat_map (fun entry =>
                map (fun stage_info =>
                       (Some entry.1, Some entry.2,
                        Some (lit (Tables.stagingSystem t)),
                        Some [stage_info], Some (lit (Tables.category t))))
                    (Tables.stages t))
             (Tables.entries t).
Proof.
  unfold Tables.expand.
  induction (Tables.entries t) as [|entry es IH]; [done|].
  simpl. rewrite map_app, IH. f_equal.
  unfold Tables.entry_records. rewrite map_map.
  apply map_ext. intros stage_info. apply summary_record.
Qed.

(** X5: a loop nest over any disease table and any stage list leaves the
    records already in [data] as they are and appends one record per
    (disease, stage) pair, diseases in table order and stages in list order
    within a disease, each record holding its disease, code, the system, the
    one stage and the category. *)
Theorem table_loop_appends (diseases : dict str) (stages : list value)
    (stagingSystem category : string) (data : list value) :
  ∃ new,
    D6.table_loop diseases stages stagingSystem category data = data ++ new ∧
    length new = (length (items diseases) * length stages)%nat ∧
    map summary new
    = flat_map (fun entry =>
                  map (fun stage_info =>
                         (Some entry.1, Some entry.2, Some (lit stagingSystem),
                          Some [stage_info], Some (lit category)))
                      stages)
               (items diseases).
Proof.
  eexists. split; [apply table_loop_spec|]. split.
  - apply expand_length.
  - apply summary_expand.
Qed.

(** X6: a loop over a stage list with a literal disease appends one record
    per stage, in list order, all with that disease and code, and leaves the
    earlier records as they are; an empty stage list appends nothing. *)
Theorem single_loop_appends (disease icd_code : string) (stages : list value)
    (stagingSystem category : string) (data : list value) :
  ∃ new,
    D6.single_loop disease icd_code stages stagingSystem category data
    = data ++ new ∧
    map summary new
    = map (fun stage_info =>
             (Some (lit disease), Some (lit icd_code), Some (lit stagingSystem),
              Some [stage_info], Some (lit category)))
          stages ∧
    (stages = [] ↔ new = []).
Proof.
  eexists. split; [apply single_loop_spec|]. split.
  - rewrite summary_expand. simpl. by rewrite app_nil_r.
  - unfold Tables.expand, Tables.entry_records. simpl. rewrite app_nil_r.
    by destruct stages.
Qed.

(** X7: when the names of a table literal are all different, the loop nest
    visits them in the order they are written: the diseases of the appended
    records are the names of the literal, each repeated once per stage. *)
Theorem table_loop_written_order (kvs : list (str * str)) (stages : list value)
    (stagingSystem category : string) (data : list value) :
  NoDup kvs.*1 →
  map (str_field "disease")
      (D6.table_loop (dict_literal kvs) stages stagingSystem category data)
  = map (str_field "disease") data
    ++ flat_map (fun entry => map (fun _ => Some entry.1) stages) kvs.
Proof.
  intros Hnd. rewrite table_loop_spec, map_app. f_equal.
  unfold Tables.expand. simpl. rewrite (dict_literal_distinct kvs Hnd).
  induction kvs as [|entry kvs IH]; [done|].
  simpl. rewrite map_app. f_equal.
  - unfold Tables.entry_records. rewrite map_map. by apply map_ext.
  - apply IH. by apply NoDup_cons in Hnd as [_ Hnd].
Qed.

Lemma table_loop_written_order_witness :
  NoDup [(lit "心力衰竭", lit "I50"); (lit "风湿性心脏病", lit "I09")].*1 ∧
  map (str_field "disease")
      (D6.table_loop
         (dict_literal [(lit "心力衰竭", lit "I50"); (lit "风湿性心脏病", lit "I09")])
         D6.nyha_stages "NYHA" "心功能分级" [])
  = map (str_field "disease") []
    ++ flat_map (fun entry => map (fun _ => Some entry.1) D6.nyha_stages)
         [(lit "心力衰竭", lit "I50"); (lit "风湿性心脏病", lit "I09")].
Proof.
  assert (NoDup [(lit "心力衰竭", lit "I50"); (lit "风湿性心脏病", lit "I09")].*1)
    as Hnd by (apply (bool_decide_unpack _); vm_compute; exact I).
  split; [exact Hnd|].
  exact (table_loop_written_order _ D6.nyha_stages "NYHA" "心功能分级" [] Hnd).
Defined.

(** ** More on the generated records *)

(** X8: every record of an output has the same keys in the same order: six
    for a SOAP record, five for a staging record, whose one stage has three,
    and seven for a department record. *)
Theorem record_schemas :
  Forall (fun r => keys r
                   = Some (map lit ["disease"; "icdCode"; "subjective";
                                    "objective"; "assessment"; "plan"]%string))
         soap_records ∧
  Forall (fun r => keys r
                   = Some (map lit ["disease"; "icdCode"; "stagingSystem";
                                    "stages"; "category"]%string) ∧
                   stage_keys r
                   = Some (map lit ["stage"; "criteria";
                                    "description"]%string))
         D6.data ∧
  Forall (fun r => keys r
                   = Some (map lit ["departmentCode"; "departmentName";
                                    "aliases"; "category"; "wards"; "bedCount";
                                    "specialRequirements"]%string))
         D8.data.
Proof. split; [|split]; by_compute. Qed.

(** X9: no two records of the staging output agree on disease, staging
    system and stage label together. *)
Theorem staging_triples_unique (i j : nat) (r1 r2 : value) :
  D6.data !! i = Some r1 → D6.data !! j = Some r2 → i ≠ j →
  triple r1 ≠ triple r2.
Proof.
  intros H1 H2 Hij Heq. apply Hij.
  assert (NoDup (triple <$> D6.data)) as Hnd
    by (apply (bool_decide_unpack _); vm_compute; exact I).
  rewrite NoDup_alt in Hnd.
  apply (Hnd i j (triple r1)); rewrite list_lookup_fmap.
  - by rewrite H1.
  - by rewrite H2, Heq.
Qed.

(** ["肺癌"] under ["TNM"] and ["糖尿病肾病"] under ["分期"] both have a
    stage ["I期"]. *)
Lemma staging_triples_unique_witness :
  ∃ r1 r2,
    D6.data !! 0%nat = Some r1 ∧ D6.data !! 107%nat = Some r2 ∧
    0%nat ≠ 107%nat ∧
    stage_label r1 = stage_label r2 ∧ triple r1 ≠ triple r2.
Proof.
  do 2 eexists.
  split; [vm_compute; reflexivity|]. split; [vm_compute; reflexivity|].
  split; [lia|]. split; [vm_compute; reflexivity|].
  apply (staging_triples_unique 0 107);
    [vm_compute; reflexivity | vm_compute; reflexivity | lia].
Defined.

Lemma staging_system_category_functional :
  functional_pairs (system_category <$> D6.data) = true.
Proof. vm_compute. reflexivity. Qed.

(** X10: in the staging output the category is a function of the staging
    system: records of the same system have the same category. *)
Theorem staging_category_of_system (r1 r2 : value) :
  r1 ∈ D6.data → r2 ∈ D6.data →
  str_field "stagingSystem" r1 = str_field "stagingSystem" r2 →
  str_field "category" r1 = str_field "category" r2.
Proof.
  intros H1 H2.
  apply (functional_pairs_spec (system_category <$> D6.data)
           (system_category r1) (system_category r2)).
  - apply staging_system_category_functional.
  - by apply list_elem_of_fmap_2.
  - by apply list_elem_of_fmap_2.
Qed.

(** Two different diabetic complications under the system ["分期"]. *)
Lemma staging_category_of_system_witness :
  ∃ r1 r2,
    D6.data !! 104%nat = Some r1 ∧ D6.data !! 109%nat = Some r2 ∧
    str_field "disease" r1 ≠ str_field "disease" r2 ∧
    str_field "stagingSystem" r1 = str_field "stagingSystem" r2 ∧
    str_field "category" r1 = str_field "category" r2.
Proof.
  do 2 eexists.
  split; [vm_compute; reflexivity|]. split; [vm_compute; reflexivity|].
  split; [vm_compute; discriminate|]. split; [vm_compute; reflexivity|].
  apply staging_category_of_system.
  - apply (list_elem_of_lookup_2 _ 104%nat). vm_compute; reflexivity.
  - apply (list_elem_of_lookup_2 _ 109%nat). vm_compute; reflexivity.
  - vm_compute; reflexivity.
Defined.

(** ** More on the department records *)

(** X11: in the department output the [wards] list is empty exactly when
    [bedCount] is 0. *)
Theorem department_wards_iff_beds :
  Forall (fun r => ∃ n wards, int_field "bedCount" r = Some n ∧
                              list_field "wards" r = Some wards ∧
                              (wards = [] ↔ n = 0%Z))
         D8.data.
Proof.
  unfold D8.data.
  repeat (constructor;
          [do 2 eexists; split; [reflexivity|]; split; [reflexivity|];
           split; intros [=]; reflexivity |]).
  constructor.
Qed.

Lemma join_NoDup_position {A} (ls : list (list A)) (i j : nat)
    (l1 l2 : list A) (x : A) :
  NoDup (mjoin ls) → ls !! i = Some l1 → ls !! j = Some l2 →
  x ∈ l1 → x ∈ l2 → i = j.
Proof.
  revert i j. induction ls as [|l ls IH]; intros i j Hnd Hi Hj H1 H2; [done|].
  change (mjoin (l :: ls)) with (l ++ mjoin ls) in Hnd.
  apply NoDup_app in Hnd as (_ & Hdisj & Hnd).
  destruct i as [|i], j as [|j]; simpl in *.
  - done.
  - injection Hi as ->. exfalso. apply (Hdisj x H1).
    apply list_elem_of_join. exists l2. split; [done|].
    by eapply list_elem_of_lookup_2.
  - injection Hj as ->. exfalso. apply (Hdisj x H2).
    apply list_elem_of_join. exists l1. split; [done|].
    by eapply list_elem_of_lookup_2.
  - f_equal. by apply IH.
Qed.

(** X12: an alias names one department only, and so does a ward: a text
    that is among the aliases (or among the wards) of two records of the
    department output is there at one position. *)
Theorem department_alias_ward_owner (k : string) (i j : nat) (r1 r2 : value)
    (x : option str) :
  k ∈ ["aliases"; "wards"]%string →
  D8.data !! i = Some r1 → D8.data !! j = Some r2 →
  x ∈ str_items k r1 → x ∈ str_items k r2 → i = j.
Proof.
  intros Hk H1 H2 Hx1 Hx2.
  apply (join_NoDup_position (str_items k <$> D8.data) i j
           (str_items k r1) (str_items k r2) x); try done.
  - apply elem_of_cons in Hk as [->|Hk]; [by_compute|].
    apply elem_of_cons in Hk as [->|Hk]; [by_compute|].
    by apply elem_of_nil in Hk.
  - by rewrite list_lookup_fmap, H1.
  - by rewrite list_lookup_fmap, H2.
Qed.

(** The alias ["心内科"] of the third department. *)
Lemma department_alias_ward_owner_witness :
  ∃ r,
    "aliases"%string ∈ ["aliases"; "wards"]%string ∧
    D8.data !! 2%nat = Some r ∧
    Some (lit "心内科") ∈ str_items "aliases" r ∧
    2%nat = 2%nat.
Proof.
  eexists.
  assert ("aliases"%string ∈ ["aliases"; "wards"]%string) as Hk
    by apply list_elem_of_here.
  split; [exact Hk|]. split; [reflexivity|].
  assert (Some (lit "心内科")
          ∈ str_items "aliases"
              (D8.department "CARD" "心血管内科" ["心内科"; "心内"] "内科系统"
                 ["心内一病区"; "心内二病区"] 60
                 ["心电监护"; "介入治疗"; "心脏康复"])) as Hx
    by apply list_elem_of_here.
  split; [exact Hx|].
  exact (department_alias_ward_owner "aliases" 2 2 _ _ _ Hk
           eq_refl eq_refl Hx Hx).
Defined.

(** X13: department names are present and pairwise different, and none of
    them is used as an alias. *)
Theorem department_names_unique :
  NoDup ((str_field "departmentName" <$> D8.data)
         ++ mjoin (str_items "aliases" <$> D8.data)) ∧
  Forall (fun r => is_Some (str_field "departmentName" r)) D8.data.
Proof. split; by_compute. Qed.

(** ** More on writing the output *)

Lemma write_text_fails (path : string) (text : str) (w : world) :
  ¬ writable w path →
  write_text path text w = (Raise (open_error w path), w).
Proof.
  intros Hw. unfold write_text, open_error, writable in *.
  destruct (fs w !! path) as [[|bytes]|];
    destruct (parent w path) as [[|bytes']|]; try done;
    exfalso; apply Hw; split; congruence.
Qed.

Lemma dump_fails_first (path : string) (data : list value) (report : io unit)
    (w : world) :
  ¬ writable w path →
  (dump_json path data ;; report) w = (Raise (open_error w path), w).
Proof.
  intros Hw. unfold mbind, io_bind, dump_json.
  by rewrite (write_text_fails path _ w Hw).
Qed.

Lemma d2_generate_unfold (w : world) :
  D2.generate_d2_soap_templates w
  = (dump_json D2.output_path soap_records ;;
     (print (lit "Generated " ++ repr_int (len soap_records)
               ++ lit " SOAP templates.") ;;
      print (lit "Output saved to " ++ lit D2.output_path))) w.
Proof.
  unfold D2.generate_d2_soap_templates.
  unfold mbind at 1. unfold io_bind at 1. unfold lift.
  by rewrite soap_templates_ok.
Qed.

(** X14: when the output path cannot be opened for writing (the directory
    is missing or is a file, or the path is a directory), a generator ends
    with the exception of [open] and leaves the world as it was: no file is
    touched and no summary line is printed. *)
Theorem failed_open_changes_nothing (gen : io unit) (path : string)
    (w : world) :
  (gen, path) ∈ generators → ¬ writable w path →
  gen w = (Raise (open_error w path), w).
Proof.
  intros Hgen Hw. unfold generators in Hgen.
  apply elem_of_cons in Hgen as [[= -> ->]|Hgen].
  { rewrite d2_generate_unfold. by apply dump_fails_first. }
  apply elem_of_cons in Hgen as [[= -> ->]|Hgen].
  { by apply dump_fails_first. }
  apply elem_of_cons in Hgen as [[= -> ->]|Hgen].
  { by apply dump_fails_first. }
  by apply elem_of_nil in Hgen.
Qed.

Lemma world_empty_not_writable : ¬ writable world_empty D6.output_path.
Proof. intros [_ Hparent]. vm_compute in Hparent. discriminate. Defined.

(** The staging generator without the directory [data]. *)
Lemma failed_open_changes_nothing_witness :
  (D6.generate_d6_disease_staging, D6.output_path) ∈ generators ∧
  ¬ writable world_empty D6.output_path ∧
  D6.generate_d6_disease_staging world_empty
  = (Raise (open_error world_empty D6.output_path), world_empty) ∧
  open_error world_empty D6.output_path = FileNotFoundError.
Proof.
  assert ((D6.generate_d6_disease_staging, D6.output_path) ∈ generators)
    as Hgen by apply list_elem_of_further, list_elem_of_here.
  split; [exact Hgen|]. split; [exact world_empty_not_writable|].
  split; [|reflexivity].
  exact (failed_open_changes_nothing _ _ _ Hgen world_empty_not_writable).
Defined.

Lemma dump_then_print_stdout (path : string) (data : list value)
    (lines : list str) (report : io unit) (w : world) :
  writable w path →
  is_Some (utf8_encode (Json.dumps (VList data))) →
  (∀ w', report w' = (Ok (), {| fs := fs w'; stdout := stdout w' ++ lines |})) →
  stdout (after (dump_json path data ;; report) w) = stdout w ++ lines.
Proof.
  intros Hw [bytes Henc] Hreport.
  unfold after, mbind, io_bind, dump_json.
  rewrite (write_text_ok path _ bytes w Hw Henc). by rewrite Hreport.
Qed.

Lemma soap_json_encodes :
  is_Some (utf8_encode (Json.dumps (VList soap_records))).
Proof. destruct d2_writes as (bytes & Henc & _). by exists bytes. Qed.

Lemma staging_json_encodes :
  is_Some (utf8_encode (Json.dumps (VList D6.data))).
Proof. destruct d6_writes as (bytes & Henc & _). by exists bytes. Qed.

Lemma department_json_encodes :
  is_Some (utf8_encode (Json.dumps (VList D8.data))).
Proof. destruct d8_writes as (bytes & Henc & _). by exists bytes. Qed.

Lemma print_one (line : str) (w : world) :
  print line w = (Ok (), {| fs := fs w; stdout := stdout w ++ [line] |}).
Proof. reflexivity. Qed.

Lemma print_two (line1 line2 : str) (w : world) :
  (print line1 ;; print line2) w
  = (Ok (), {| fs := fs w; stdout := stdout w ++ [line1; line2] |}).
Proof.
  unfold mbind, io_bind, print. simpl. by rewrite <- app_assoc.
Qed.

Lemma soap_summary :
  lit "Generated " ++ repr_int (len soap_records) ++ lit " SOAP templates."
  = lit "Generated 30 SOAP templates." ∧
  lit "Output saved to " ++ lit D2.output_path
  = lit "Output saved to data/d2_soap_templates.json".
Proof. split; vm_compute; reflexivity. Qed.

Lemma staging_summary :
  lit "Generated " ++ repr_int (len D6.data)
    ++ lit " disease staging entries. Output saved to " ++ lit D6.output_path
  = lit "Generated 191 disease staging entries. Output saved to data/d6_disease_staging.json".
Proof. vm_compute. reflexivity. Qed.

Lemma department_summary :
  lit "Generated " ++ repr_int (len D8.data)
    ++ lit " department mapping entries. Output saved to "
    ++ lit D8.output_path
  = lit "Generated 32 department mapping entries. Output saved to data/d8_department_mapping.json".
Proof. vm_compute. reflexivity. Qed.

(** X15: a run that can write appends its summary to the standard output
    and keeps what was printed before: two lines for the SOAP generator, one
    for each of the others, the count being the number of records written. *)
Theorem generators_report (w : world) :
  Forall (fun path => writable w path)
         [D2.output_path; D6.output_path; D8.output_path] →
  stdout (after D2.generate_d2_soap_templates w)
  = stdout w ++ [lit "Generated 30 SOAP templates.";
                 lit "Output saved to data/d2_soap_templates.json"] ∧
  stdout (after D6.generate_d6_disease_staging w)
  = stdout w ++ [lit "Generated 191 disease staging entries. Output saved to data/d6_disease_staging.json"] ∧
  stdout (after D8.generate_d8_department_mapping w)
  = stdout w ++ [lit "Generated 32 department mapping entries. Output saved to data/d8_department_mapping.json"].
Proof.
  intros Hw.
  apply Forall_cons in Hw as [H2 Hw].
  apply Forall_cons in Hw as [H6 Hw].
  apply Forall_cons in Hw as [H8 _].
  destruct soap_summary as [Hline1 Hline2].
  split; [|split].
  - unfold after. rewrite d2_generate_unfold, Hline1, Hline2.
    apply (dump_then_print_stdout D2.output_path soap_records _ _ w H2
             soap_json_encodes).
    intros w'. apply print_two.
  - unfold D6.generate_d6_disease_staging. rewrite staging_summary.
    apply (dump_then_print_stdout D6.output_path D6.data _ _ w H6
             staging_json_encodes).
    intros w'. apply print_one.
  - unfold D8.generate_d8_department_mapping. rewrite department_summary.
    apply (dump_then_print_stdout D8.output_path D8.data _ _ w H8
             department_json_encodes).
    intros w'. apply print_one.
Qed.

Lemma world_stale_writable :
  Forall (fun path => writable world_stale path)
         [D2.output_path; D6.output_path; D8.output_path].
Proof.
  repeat constructor; try (vm_compute; discriminate); vm_compute; reflexivity.
Defined.

Lemma generators_report_witness :
  Forall (fun path => writable world_stale path)
         [D2.output_path; D6.output_path; D8.output_path] ∧
  stdout (after D6.generate_d6_disease_staging world_stale)
  = [lit "earlier";
     lit "Generated 191 disease staging entries. Output saved to data/d6_disease_staging.json"].
Proof.
  split; [exact world_stale_writable|].
  exact (proj1 (proj2 (generators_report world_stale world_stale_writable))).
Defined.

Lemma generators_write (gen : io unit) (path : string) :
  (gen, path) ∈ generators → ∃ bytes, writes gen path bytes.
Proof.
  intros Hgen. unfold generators in Hgen.
  apply elem_of_cons in Hgen as [[= -> ->]|Hgen].
  { destruct d2_writes as (b & _ & H). by exists b. }
  apply elem_of_cons in Hgen as [[= -> ->]|Hgen].
  { destruct d6_writes as (b & _ & H). by exists b. }
  apply elem_of_cons in Hgen as [[= -> ->]|Hgen].
  { destruct d8_writes as (b & _ & H). by exists b. }
  by apply elem_of_nil in Hgen.
Qed.

Lemma writable_after_other (path other : string) (bytes : list N)
    (w w' : world) :
  writable w path → writable w other →
  fs w' = <[path := File bytes]> (fs w) → writable w' other.
Proof.
  intros [Hnode Hparent] [Hnode' Hparent'] Hfs.
  unfold writable, parent in *. rewrite Hfs. split.
  - destruct (decide (path = other)) as [->|Hne].
    + by rewrite lookup_insert_eq.
    + by rewrite lookup_insert_ne.
  - destruct (dirname other) as [|c d]; [done|].
    rewrite lookup_insert_ne; [done|]. by intros ->.
Qed.

(** X16: the generators do not interfere: with both output paths writable,
    running one generator leaves every other path of the file system as it
    was, the other generator still ends normally afterwards, and the two
    orders of running them leave the same file system. *)
Theorem generators_independent (gen1 gen2 : io unit) (path1 path2 : string)
    (w : world) :
  (gen1, path1) ∈ generators → (gen2, path2) ∈ generators →
  path1 ≠ path2 → writable w path1 → writable w path2 →
  (∀ p, p ≠ path1 → fs (after gen1 w) !! p = fs w !! p) ∧
  outcome gen2 (after gen1 w) = Ok () ∧
  fs (after gen2 (after gen1 w)) = fs (after gen1 (after gen2 w)).
Proof.
  intros Hg1 Hg2 Hne Hw1 Hw2.
  destruct (generators_write _ _ Hg1) as [b1 Hgen1].
  destruct (generators_write _ _ Hg2) as [b2 Hgen2].
  destruct (Hgen1 w Hw1) as [_ Hfs1]. destruct (Hgen2 w Hw2) as [_ Hfs2].
  pose proof (writable_after_other path1 path2 b1 w _ Hw1 Hw2 Hfs1) as Hw2'.
  pose proof (writable_after_other path2 path1 b2 w _ Hw2 Hw1 Hfs2) as Hw1'.
  destruct (Hgen2 _ Hw2') as [Hok21 Hfs21].
  destruct (Hgen1 _ Hw1') as [_ Hfs12].
  split; [|split].
  - intros p Hp. rewrite Hfs1. by apply lookup_insert_ne.
  - done.
  - rewrite Hfs21, Hfs12, Hfs1, Hfs2. by apply insert_insert_ne.
Qed.

Lemma generators_independent_witness :
  (D2.generate_d2_soap_templates, D2.output_path) ∈ generators ∧
  (D6.generate_d6_disease_staging, D6.output_path) ∈ generators ∧
  D2.output_path ≠ D6.output_path ∧
  writable world_stale D2.output_path ∧ writable world_stale D6.output_path ∧
  content (after D2.generate_d2_soap_templates world_stale) D6.output_path
  = Some [91; 93] ∧
  fs (after D6.generate_d6_disease_staging
        (after D2.generate_d2_soap_templates world_stale))
  = fs (after D2.generate_d2_soap_templates
          (after D6.generate_d6_disease_staging world_stale)).
Proof.
  assert ((D2.generate_d2_soap_templates, D2.output_path) ∈ generators)
    as Hg1 by apply list_elem_of_here.
  assert ((D6.generate_d6_disease_staging, D6.output_path) ∈ generators)
    as Hg2 by apply list_elem_of_further, list_elem_of_here.
  assert (D2.output_path ≠ D6.output_path) as Hne by (vm_compute; discriminate).
  assert (writable world_stale D2.output_path) as Hw1
    by (split; [vm_compute; discriminate | vm_compute; reflexivity]).
  assert (writable world_stale D6.output_path) as Hw2
    by (split; [vm_compute; discriminate | vm_compute; reflexivity]).
  pose proof (generators_independent _ _ _ _ world_stale Hg1 Hg2 Hne Hw1 Hw2)
    as (Hframe & _ & Hcomm).
  split; [exact Hg1|]. split; [exact Hg2|]. split; [exact Hne|].
  split; [exact Hw1|]. split; [exact Hw2|]. split; [|exact Hcomm].
  unfold content. rewrite (Hframe D6.output_path); [reflexivity|].
  intros Heq. apply Hne. symmetry. exact Heq.
Defined.

(** ** More on the text that is written *)

Lemma escape_char_plain (c : codepoint) :
  plain c = true → Json.escape_char c = [c].
Proof.
  unfold plain, Json.escape_char. intros H.
  apply negb_true_iff, orb_false_iff in H as [H Hctl].
  apply orb_false_iff in H as [Hquote Hslash].
  rewrite Hquote, Hslash, Hctl.
  apply N.ltb_ge in Hctl.
  repeat case_match; try done;
    match goal with H : (c =? _) = true |- _ => apply N.eqb_eq in H; lia end.
Qed.

(** X17: with [ensure_ascii=False] a text without quote, backslash and
    control characters is written between two quotes as it is, whatever its
    script. *)
Theorem encode_basestring_verbatim (s : str) :
  forallb plain s = true → Json.encode_basestring s = [34] ++ s ++ [34].
Proof.
  intros Hs. unfold Json.encode_basestring. do 2 f_equal.
  induction s as [|c s IH]; [done|].
  simpl in Hs. apply andb_true_iff in Hs as [Hc Hs].
  simpl. by rewrite (escape_char_plain c Hc), IH.
Qed.

Lemma encode_basestring_verbatim_witness :
  forallb plain (lit "体温XX℃，持续X天/月/年...") = true ∧
  Json.encode_basestring (lit "体温XX℃，持续X天/月/年...")
  = [34] ++ lit "体温XX℃，持续X天/月/年..." ++ [34].
Proof.
  assert (forallb plain (lit "体温XX℃，持续X天/月/年...") = true) as Hs
    by (vm_compute; reflexivity).
  split; [exact Hs|]. exact (encode_basestring_verbatim _ Hs).
Defined.

Lemma all_bits_spec (n : nat) (prefix : N) (p : N → bool) (c : N) :
  all_bits n prefix p = true →
  prefix * 2 ^ N.of_nat n ≤ c → c < (prefix + 1) * 2 ^ N.of_nat n →
  p c = true.
Proof.
  revert prefix. induction n as [|n IH]; intros prefix Hall Hlo Hhi.
  - simpl in *. assert (c = prefix) as -> by lia. done.
  - simpl in Hall. apply andb_true_iff in Hall as [H0 H1].
    rewrite Nat2N.inj_succ, N.pow_succ_r' in Hlo, Hhi.
    destruct (N.lt_ge_cases c ((2 * prefix + 1) * 2 ^ N.of_nat n)) as [Hc|Hc].
    + apply (IH (2 * prefix)); [done|lia|done].
    + apply (IH (2 * prefix + 1)); [done|done|lia].
Qed.

(** The six low bits of a number and the bits above them. *)
Lemma split_low_bits (x : N) : N.lor (N.shiftl (N.shiftr x 6) 6) (cont x) = x.
Proof.
  apply N.bits_inj. intros i. unfold cont.
  rewrite N.lor_spec, N.land_spec. change 63 with (N.ones 6).
  destruct (N.lt_ge_cases i 6) as [Hi|Hi].
  - rewrite N.shiftl_spec_low, N.ones_spec_low by done.
    by rewrite andb_true_r.
  - rewrite N.shiftl_spec_high', N.shiftr_spec', N.ones_spec_high by done.
    rewrite N.sub_add by done. by rewrite andb_false_r, orb_false_r.
Qed.

Lemma split_two_groups (x : N) :
  N.lor (N.shiftl (N.shiftr x 12) 12)
        (N.lor (N.shiftl (cont (N.shiftr x 6)) 6) (cont x)) = x.
Proof.
  rewrite N.lor_assoc.
  change 12 with (6 + 6) at 2. rewrite <- N.shiftl_shiftl, <- N.shiftl_lor.
  change 12 with (6 + 6). rewrite <- N.shiftr_shiftr.
  by rewrite !split_low_bits.
Qed.

Lemma split_three_groups (x : N) :
  N.lor (N.shiftl (N.shiftr x 18) 18)
        (N.lor (N.shiftl (cont (N.shiftr x 12)) 12)
               (N.lor (N.shiftl (cont (N.shiftr x 6)) 6) (cont x))) = x.
Proof.
  rewrite N.lor_assoc.
  change 18 with (6 + 12) at 2. rewrite <- N.shiftl_shiftl, <- N.shiftl_lor.
  change 18 with (12 + 6). rewrite <- N.shiftr_shiftr.
  rewrite split_low_bits. apply split_two_groups.
Qed.

(** A continuation byte keeps the six bits it carries. *)
Lemma cont_continuation (x : N) : cont (N.lor 128 (cont x)) = cont x.
Proof.
  unfold cont. rewrite N.land_lor_distr_l. simpl (N.land 128 63).
  rewrite N.lor_0_l, <- N.land_assoc. by rewrite N.land_diag.
Qed.

Lemma shiftr_below (c : N) (k n : N) : c < n * 2 ^ k → N.shiftr c k < n.
Proof.
  intros Hc. rewrite N.shiftr_div_pow2.
  apply N.Div0.div_lt_upper_bound. lia.
Qed.

(** The first byte of a sequence of two, three and four bytes. *)
Lemma lead_two (h : N) :
  h < 32 →
  let b0 := N.lor 192 h in
  (b0 <? 128) = false ∧ (b0 <? 192) = false ∧ (b0 <? 224) = true ∧
  N.land b0 31 = h.
Proof.
  intros Hh.
  assert (all_bits 5 0 (fun h =>
            let b0 := N.lor 192 h in
            negb (b0 <? 128) && negb (b0 <? 192) && (b0 <? 224)
            && (N.land b0 31 =? h)) = true) as Hall by (vm_compute; reflexivity).
  apply (all_bits_spec 5 0 _ h) in Hall; [|lia|exact Hh]. simpl in Hall.
  repeat (apply andb_true_iff in Hall as [Hall ?]).
  repeat split;
    first [by apply negb_true_iff | by apply N.eqb_eq | done].
Qed.

Lemma lead_three (h : N) :
  h < 16 →
  let b0 := N.lor 224 h in
  (b0 <? 128) = false ∧ (b0 <? 192) = false ∧ (b0 <? 224) = false ∧
  (b0 <? 240) = true ∧ N.land b0 15 = h.
Proof.
  intros Hh.
  assert (all_bits 4 0 (fun h =>
            let b0 := N.lor 224 h in
            negb (b0 <? 128) && negb (b0 <? 192) && negb (b0 <? 224)
            && (b0 <? 240) && (N.land b0 15 =? h)) = true) as Hall
    by (vm_compute; reflexivity).
  apply (all_bits_spec 4 0 _ h) in Hall; [|lia|exact Hh]. simpl in Hall.
  repeat (apply andb_true_iff in Hall as [Hall ?]).
  repeat split;
    first [by apply negb_true_iff | by apply N.eqb_eq | done].
Qed.

Lemma lead_four (h : N) :
  h < 8 →
  let b0 := N.lor 240 h in
  (b0 <? 128) = false ∧ (b0 <? 192) = false ∧ (b0 <? 224) = false ∧
  (b0 <? 240) = false ∧ N.land b0 7 = h.
Proof.
  intros Hh.
  assert (all_bits 3 0 (fun h =>
            let b0 := N.lor 240 h in
            negb (b0 <? 128) && negb (b0 <? 192) && negb (b0 <? 224)
            && negb (b0 <? 240) && (N.land b0 7 =? h)) = true) as Hall
    by (vm_compute; reflexivity).
  apply (all_bits_spec 3 0 _ h) in Hall; [|lia|exact Hh]. simpl in Hall.
  repeat (apply andb_true_iff in Hall as [Hall ?]).
  repeat split;
    first [by apply negb_true_iff | by apply N.eqb_eq | done].
Qed.

(** The bytes of one code point, followed by anything, are read back as
    that code point, and the reading goes on after them. *)
Lemma utf8_decode_encode_cp (c : codepoint) (bs rest : list N) :
  utf8_encode_cp c = Some bs →
  utf8_decode (bs ++ rest) = c :: utf8_decode rest.
Proof.
  unfold utf8_encode_cp.
  destruct (c <? 128) eqn:H1.
  { intros [= <-]. cbn [app utf8_decode]. by rewrite H1. }
  destruct (c <? 2048) eqn:H2.
  { intros [= <-]. apply N.ltb_lt in H2.
    destruct (lead_two (N.shiftr c 6)) as (Ha & Hb & Hc & Hd);
      [by apply shiftr_below|].
    cbn [app utf8_decode]. rewrite Ha, Hb, Hc, Hd, cont_continuation.
    by rewrite split_low_bits. }
  destruct (c <? 65536) eqn:H3.
  { destruct ((55296 <=? c) && (c <? 57344)); [done|].
    intros [= <-]. apply N.ltb_lt in H3.
    destruct (lead_three (N.shiftr c 12)) as (Ha & Hb & Hc & Hd & He);
      [by apply shiftr_below|].
    cbn [app utf8_decode]. rewrite Ha, Hb, Hc, Hd, He, !cont_continuation.
    by rewrite split_two_groups. }
  destruct (c <? 1114112) eqn:H4; [|done].
  intros [= <-]. apply N.ltb_lt in H4.
  destruct (lead_four (N.shiftr c 18)) as (Ha & Hb & Hc & Hd & He);
    [apply shiftr_below; lia|].
  cbn [app utf8_decode]. rewrite Ha, Hb, Hc, Hd, He, !cont_continuation.
  by rewrite split_three_groups.
Qed.

(** X18: what is written as UTF-8 is read back as the same text: decoding
    the bytes of an encodable string gives the string. *)
Theorem utf8_decode_encode (s : str) (bytes : list N) :
  utf8_encode s = Some bytes → utf8_decode bytes = s.
Proof.
  revert bytes. induction s as [|c s IH]; intros bytes; simpl.
  - by intros [= <-].
  - destruct (utf8_encode_cp c) as [bs|] eqn:Hc; [|done].
    destruct (utf8_encode s) as [rest|]; [|done].
    intros [= <-]. rewrite (utf8_decode_encode_cp c bs rest Hc).
    by rewrite (IH rest).
Qed.

Lemma utf8_decode_encode_witness :
  utf8_encode (lit "高血压 BP ℃")
  = Some [233; 171; 152; 232; 161; 128; 229; 142; 139; 32; 66; 80; 32;
          226; 132; 131] ∧
  utf8_decode [233; 171; 152; 232; 161; 128; 229; 142; 139; 32; 66; 80; 32;
               226; 132; 131]
  = lit "高血压 BP ℃".
Proof.
  assert (utf8_encode (lit "高血压 BP ℃")
          = Some [233; 171; 152; 232; 161; 128; 229; 142; 139; 32; 66; 80;
                  32; 226; 132; 131]) as Henc by (vm_compute; reflexivity).
  split; [exact Henc|]. exact (utf8_decode_encode _ _ Henc).
Defined.
